(** * AsyncNN: a shallow embedding of the event-driven spiking network core

    Sources: [src/core/async_neuron.py] (AsyncNeuron), [src/core/neuron.py]
    (the plain neuron), [src/core/synapse.py] (SynapseMap) and
    [src/core/brain.py] (Brain).

    Python floats are modelled as real numbers ([R]); [float('inf')] as the
    extra value [PInf] of [ext].  Python dicts are association lists whose
    assignment updates an existing key in place and appends a new one, as
    CPython's insertion-ordered dicts do.  Failing dict access ([d[k]],
    [del d[k]]) and division by zero are the exceptions of [exn]. *)

From Stdlib Require Import Reals Lra List Permutation Arith Lia.
Import ListNotations.
Open Scope R_scope.

(** ** Exceptions and fallible results *)

Inductive exn : Type :=
| KeyError
| ZeroDivisionError.

Inductive result (A : Type) : Type :=
| Ok : A -> result A
| Err : exn -> result A.
Arguments Ok {A} _.
Arguments Err {A} _.

Definition bind {A B : Type} (m : result A) (k : A -> result B) : result B :=
  match m with
  | Ok a => k a
  | Err e => Err e
  end.

Notation "x <- m ;; k" := (bind m (fun x => k))
  (at level 61, m at next level, right associativity).

(** ** Python dicts as association lists *)

Module Dict.
Section Dict.
Context {K V : Type} (keq : forall x y : K, {x = y} + {x <> y}).

Definition t := list (K * V).

Fixpoint get (d : t) (k : K) : option V :=
  match d with
  | [] => None
  | (k', v) :: d' => if keq k k' then Some v else get d' k
  end.

Definition mem (k : K) (d : t) : bool :=
  match get d k with Some _ => true | None => false end.

(** [d[k]] as an expression *)
Definition getitem (d : t) (k : K) : result V :=
  match get d k with Some v => Ok v | None => Err KeyError end.

(** [d[k] = v] *)
Fixpoint setitem (d : t) (k : K) (v : V) : t :=
  match d with
  | [] => [(k, v)]
  | (k', v') :: d' => if keq k k' then (k', v) :: d' else (k', v') :: setitem d' k v
  end.

(** the dict without key [k] (keys of a dict are unique: one entry goes) *)
Definition remove_key (d : t) (k : K) : t :=
  filter (fun kv => if keq k (fst kv) then false else true) d.

(** [del d[k]] *)
Definition delitem (d : t) (k : K) : result t :=
  if mem k d then Ok (remove_key d k) else Err KeyError.

(** [d.pop(k, default)] *)
Definition pop (d : t) (k : K) (default : V) : V * t :=
  match get d k with
  | Some v => (v, remove_key d k)
  | None => (default, d)
  end.

(** assignment of [f v] to every value, as [for k in d: d[k] = f(d[k])] *)
Definition map_values (f : V -> V) (d : t) : t :=
  map (fun kv => (fst kv, f (snd kv))) d.
End Dict.

Section Lists.
Context {K X : Type} (keq : forall x y : K, {x = y} + {x <> y}).

(** [d.setdefault(k, []).append(x)] *)
Definition setdefault_append (d : list (K * list X)) (k : K) (x : X)
  : list (K * list X) :=
  match get keq d k with
  | Some l => setitem keq d k (l ++ [x])
  | None => setitem keq d k [x]
  end.
End Lists.
End Dict.

(** ** AsyncNeuron (src/core/async_neuron.py) *)

Module AsyncNeuron.

Record Neuron : Type := mkNeuron {
  id : nat;
  potential : R;
  rpotential : R;
  threshold : R;
  decay : R;
  psdelay : R;
  arperiod : R;
  rrperiod : R;
  last_input_time : R
}.

(** [__init__]: the id comes from the class-wide counter [_id_gen]. *)
Definition init (nid : nat) (rpot thr dec psd arp rrp : R) : Neuron :=
  mkNeuron nid rpot rpot thr dec psd arp rrp 0.

Definition set_potential (p : R) (n : Neuron) : Neuron :=
  mkNeuron (id n) p (rpotential n) (threshold n) (decay n) (psdelay n)
    (arperiod n) (rrperiod n) (last_input_time n).

Definition set_last_input_time (t : R) (n : Neuron) : Neuron :=
  mkNeuron (id n) (potential n) (rpotential n) (threshold n) (decay n) (psdelay n)
    (arperiod n) (rrperiod n) t.

(** A float that may be [float('inf')]. *)
Inductive ext : Type :=
| Fin : R -> ext
| PInf : ext.

(** [x >= y] with [y] possibly infinite ([x] is a finite potential) *)
Definition ge_ext (x : R) (y : ext) : bool :=
  match y with
  | Fin r => if Rle_dec r x then true else false
  | PInf => false
  end.

(** Python's [/]: raises on a zero divisor. *)
Definition py_div (a b : R) : result R :=
  if Req_EM_T b 0 then Err ZeroDivisionError else Ok (a / b).

(** [get_current_potential]: a pure function of the state. *)
Definition get_current_potential (self : Neuron) (current_time : R) : R :=
  let dt := current_time - last_input_time self in
  rpotential self + (potential self - rpotential self) * exp (- decay self * dt).

(** [_get_dynamic_threshold] *)
Definition _get_dynamic_threshold (self : Neuron) (current_time : R) : result ext :=
  let dt := current_time - last_input_time self in
  if Rlt_dec dt (arperiod self) then Ok PInf
  else if Rlt_dec dt (arperiod self + rrperiod self) then
    let elapsed := dt - arperiod self in
    q <- py_div elapsed (rrperiod self) ;;
    Ok (Fin (threshold self + threshold self * (1 - q)))
  else Ok (Fin (threshold self)).

(** Lines 89-93 of [receive_input]: decay, move the anchor, add the input.
    The [await asyncio.sleep(self.psdelay)] of line 88 only orders the
    deliveries of one batch; it is modelled by the schedule of
    [Brain.propagate]. *)
Definition receive_input_update (self : Neuron) (current_time input_strength : R) : Neuron :=
  let old_potential := get_current_potential self current_time in
  let self1 := set_potential old_potential self in
  let self2 := set_last_input_time current_time self1 in
  set_potential (potential self2 + input_strength) self2.

(** [receive_input]: returns whether the neuron fired and its new state. *)
Definition receive_input (self : Neuron) (current_time input_strength : R)
  : result (bool * Neuron) :=
  let self3 := receive_input_update self current_time input_strength in
  threshold_now <- _get_dynamic_threshold self3 current_time ;;
  let fired := ge_ext (potential self3) threshold_now in
  if fired then Ok (true, set_potential (rpotential self3) self3)
  else Ok (false, self3).

(** [reset]: in async_neuron.py it is written at column 0, as a module-level
    function of a neuron, not as a method. *)
Definition reset (self : Neuron) (current_time : R) : Neuron :=
  set_last_input_time current_time (set_potential (rpotential self) self).

End AsyncNeuron.

(** ** SynapseMap (src/core/synapse.py) *)

Module SynapseMap.

(** [Synapse]; [pre_id] and [post_id] may be [None] in the Python code,
    whose [create_synapse] tests for it. *)
Record Synapse : Type := mkSynapse {
  syn_id : nat;
  pre_id : option nat;
  post_id : option nat;
  weight : R;
  delay : R
}.

Record SynapseMap : Type := mkMap {
  _synapses : list (nat * Synapse);
  _pre_synapses : list (nat * list nat);
  _post_synapses : list (nat * list nat)
}.

(** [__init__] *)
Definition init : SynapseMap := mkMap [] [] [].

Definition dget {V} := @Dict.get nat V Nat.eq_dec.
Definition dmem {V} := @Dict.mem nat V Nat.eq_dec.
Definition dgetitem {V} := @Dict.getitem nat V Nat.eq_dec.
Definition dsetitem {V} := @Dict.setitem nat V Nat.eq_dec.
Definition ddelitem {V} := @Dict.delitem nat V Nat.eq_dec.
Definition dsetdefault_append := @Dict.setdefault_append nat nat Nat.eq_dec.

(** [create_synapse] *)
Definition create_synapse (self : SynapseMap) (synapse : Synapse) : SynapseMap :=
  match pre_id synapse, post_id synapse with
  | Some pre, Some post =>
      mkMap (dsetitem (_synapses self) (syn_id synapse) synapse)
            (dsetdefault_append (_pre_synapses self) pre (syn_id synapse))
            (dsetdefault_append (_post_synapses self) post (syn_id synapse))
  | _, _ => self
  end.

(** [list.remove(x)]: drops the first occurrence. *)
Fixpoint list_remove (x : nat) (l : list nat) : list nat :=
  match l with
  | [] => []
  | y :: l' => if Nat.eq_dec x y then l' else y :: list_remove x l'
  end.

(** [for k, syn_list in d.items(): if syn_id in syn_list: syn_list.remove(syn_id)] *)
Definition remove_everywhere (syn : nat) (d : list (nat * list nat)) : list (nat * list nat) :=
  Dict.map_values (fun l => if in_dec Nat.eq_dec syn l then list_remove syn l else l) d.

(** [break_synapse] *)
Definition break_synapse (self : SynapseMap) (syn : nat) : result SynapseMap :=
  syns <- ddelitem (_synapses self) syn ;;
  Ok (mkMap syns (remove_everywhere syn (_pre_synapses self))
                 (remove_everywhere syn (_post_synapses self))).

(** the loop [for syn in pre_syns + post_syns: if syn in self._synapses: del ...] *)
Fixpoint delete_records (syns : list (nat * Synapse)) (ids : list nat)
  : list (nat * Synapse) :=
  match ids with
  | [] => syns
  | s :: ids' =>
      let syns' := if dmem s syns then Dict.remove_key Nat.eq_dec syns s else syns in
      delete_records syns' ids'
  end.

(** [disconnect_neuron] *)
Definition disconnect_neuron (self : SynapseMap) (neuron_id : nat) (delete : bool)
  : result SynapseMap :=
  pre_syns <- dgetitem (_pre_synapses self) neuron_id ;;
  post_syns <- dgetitem (_post_synapses self) neuron_id ;;
  let syns := delete_records (_synapses self) (pre_syns ++ post_syns) in
  pre <- (if dmem neuron_id (_pre_synapses self) then
            if delete then ddelitem (_pre_synapses self) neuron_id
            else Ok (dsetitem (_pre_synapses self) neuron_id [])
          else Ok (_pre_synapses self)) ;;
  (* the [delete] branch of the second test deletes from [_pre_synapses] again *)
  pp <- (if dmem neuron_id (_post_synapses self) then
            if delete then
              (pre' <- ddelitem pre neuron_id ;; Ok (pre', _post_synapses self))
            else Ok (pre, dsetitem (_post_synapses self) neuron_id [])
          else Ok (pre, _post_synapses self)) ;;
  Ok (mkMap syns (fst pp) (snd pp)).

(** [add_neuron] *)
Definition add_neuron (self : SynapseMap) (neuron_id : nat) : result SynapseMap :=
  pre_l <- dgetitem (_pre_synapses self) neuron_id ;;
  let pre := match pre_l with [] => dsetitem (_pre_synapses self) neuron_id [] | _ => _pre_synapses self end in
  post_l <- dgetitem (_post_synapses self) neuron_id ;;
  let post := match post_l with [] => dsetitem (_post_synapses self) neuron_id [] | _ => _post_synapses self end in
  Ok (mkMap (_synapses self) pre post).

End SynapseMap.

(** ** Brain (src/core/brain.py) *)

Module Brain.

Import AsyncNeuron.

(** [Synapse] of brain.py *)
Record Synapse : Type := mkSynapse {
  target_id : nat;
  weight : R;
  delay : R
}.

(** [Input] *)
Record Input : Type := mkInput {
  neuron_id : nat;
  strength : R
}.

Record Brain : Type := mkBrain {
  time : R;
  neurons : list nat;
  neurons_by_id : list (nat * Neuron);
  connections : list (nat * list Synapse);
  input_neurons : list nat;
  output_neurons : list nat;
  input_buffer : list (R * list Input)
}.

(** [__init__] *)
Definition init : Brain := mkBrain 0 [] [] [] [] [] [].

Definition with_time (t : R) (b : Brain) : Brain :=
  mkBrain t (neurons b) (neurons_by_id b) (connections b) (input_neurons b)
    (output_neurons b) (input_buffer b).
Definition with_neurons (ns : list nat) (b : Brain) : Brain :=
  mkBrain (time b) ns (neurons_by_id b) (connections b) (input_neurons b)
    (output_neurons b) (input_buffer b).
Definition with_neurons_by_id (m : list (nat * Neuron)) (b : Brain) : Brain :=
  mkBrain (time b) (neurons b) m (connections b) (input_neurons b)
    (output_neurons b) (input_buffer b).
Definition with_connections (c : list (nat * list Synapse)) (b : Brain) : Brain :=
  mkBrain (time b) (neurons b) (neurons_by_id b) c (input_neurons b)
    (output_neurons b) (input_buffer b).
Definition with_input_neurons (s : list nat) (b : Brain) : Brain :=
  mkBrain (time b) (neurons b) (neurons_by_id b) (connections b) s
    (output_neurons b) (input_buffer b).
Definition with_output_neurons (s : list nat) (b : Brain) : Brain :=
  mkBrain (time b) (neurons b) (neurons_by_id b) (connections b) (input_neurons b)
    s (input_buffer b).
Definition with_input_buffer (buf : list (R * list Input)) (b : Brain) : Brain :=
  mkBrain (time b) (neurons b) (neurons_by_id b) (connections b) (input_neurons b)
    (output_neurons b) buf.

(** Python sets of ids *)
Definition set_mem (x : nat) (s : list nat) : bool :=
  if in_dec Nat.eq_dec x s then true else false.
Definition set_add (x : nat) (s : list nat) : list nat :=
  if set_mem x s then s else s ++ [x].
Definition set_remove (x : nat) (s : list nat) : list nat :=
  filter (fun y => if Nat.eq_dec x y then false else true) s.

(** dicts keyed by neuron ids and by (float) timestamps *)
Definition nget {V} := @Dict.get nat V Nat.eq_dec.
Definition nmem {V} := @Dict.mem nat V Nat.eq_dec.
Definition ngetitem {V} := @Dict.getitem nat V Nat.eq_dec.
Definition nsetitem {V} := @Dict.setitem nat V Nat.eq_dec.
Definition nremove {V} := @Dict.remove_key nat V Nat.eq_dec.
Definition tget := @Dict.get R (list Input) Req_EM_T.
Definition tpop := @Dict.pop R (list Input) Req_EM_T.
Definition tsetdefault_append := @Dict.setdefault_append R Input Req_EM_T.

(** [get_neuron] *)
Definition get_neuron (self : Brain) (nid : nat) : option Neuron :=
  nget (neurons_by_id self) nid.

(** [get_synapses] *)
Definition get_synapses (self : Brain) (nid : nat) : list Synapse :=
  match nget (connections self) nid with Some l => l | None => [] end.

(** [neuron_exists], [is_input_neuron], [is_output_neuron] *)
Definition neuron_exists (self : Brain) (nid : nat) : bool := set_mem nid (neurons self).
Definition is_input_neuron (self : Brain) (nid : nat) : bool := set_mem nid (input_neurons self).
Definition is_output_neuron (self : Brain) (nid : nat) : bool := set_mem nid (output_neurons self).

(** [add_neuron] *)
Definition add_neuron (self : Brain) (neuron : Neuron) (is_input is_output : bool) : Brain :=
  if neuron_exists self (id neuron) then self
  else
    let b1 := with_neurons (set_add (id neuron) (neurons self)) self in
    let b2 := with_neurons_by_id (nsetitem (neurons_by_id b1) (id neuron) neuron) b1 in
    let b3 := with_connections (nsetitem (connections b2) (id neuron) []) b2 in
    let b4 := if is_input then with_input_neurons (set_add (id neuron) (input_neurons b3)) b3 else b3 in
    if is_output then with_output_neurons (set_add (id neuron) (output_neurons b4)) b4 else b4.

(** [disconnect_neuron] *)
Definition disconnect_neuron (self : Brain) (nid : nat) : Brain :=
  let c1 := if nmem nid (connections self) then nremove (connections self) nid
            else connections self in
  let c2 := Dict.map_values
              (filter (fun syn => if Nat.eq_dec (target_id syn) nid then false else true)) c1 in
  with_connections c2 self.

(** [delete_neuron] *)
Definition delete_neuron (self : Brain) (nid : nat) : Brain :=
  if neuron_exists self nid then
    let b1 := if is_input_neuron self nid
              then with_input_neurons (set_remove nid (input_neurons self)) self else self in
    let b2 := if is_output_neuron b1 nid
              then with_output_neurons (set_remove nid (output_neurons b1)) b1 else b1 in
    let b3 := disconnect_neuron b2 nid in
    let b4 := with_input_buffer
                (Dict.map_values
                   (filter (fun inp => if Nat.eq_dec (neuron_id inp) nid then false else true))
                   (input_buffer b3)) b3 in
    let b5 := if nmem nid (neurons_by_id b4)
              then with_neurons_by_id (nremove (neurons_by_id b4) nid) b4 else b4 in
    if set_mem nid (neurons b5) then with_neurons (set_remove nid (neurons b5)) b5 else b5
  else self.

(** [create_synapse]: [self.connections[from_neuron_id]] may raise. *)
Definition create_synapse (self : Brain) (from_neuron_id : nat) (synapse : Synapse)
  : result Brain :=
  if (neuron_exists self from_neuron_id && neuron_exists self (target_id synapse))%bool then
    l <- ngetitem (connections self) from_neuron_id ;;
    Ok (with_connections (nsetitem (connections self) from_neuron_id (l ++ [synapse])) self)
  else Ok self.

(** [break_synapses]: [self.connections[from_neuron_id]] may raise. *)
Definition break_synapses (self : Brain) (from_neuron_id to_neuron_id : nat) : result Brain :=
  if neuron_exists self from_neuron_id then
    l <- ngetitem (connections self) from_neuron_id ;;
    Ok (with_connections
          (nsetitem (connections self) from_neuron_id
             (filter (fun syn => if Nat.eq_dec (target_id syn) to_neuron_id then false else true) l))
          self)
  else Ok self.

(** [sever_connection] *)
Definition sever_connection (self : Brain) (neuron_a_id neuron_b_id : nat) : result Brain :=
  if (neuron_exists self neuron_a_id && neuron_exists self neuron_b_id)%bool then
    b1 <- break_synapses self neuron_a_id neuron_b_id ;;
    break_synapses b1 neuron_b_id neuron_a_id
  else Ok self.

(** [add_input] *)
Definition add_input (self : Brain) (timestamp : R) (input : Input) : Brain :=
  with_input_buffer (tsetdefault_append (input_buffer self) timestamp input) self.

(** the events of [_propagate_from]'s loop, in the order it adds them *)
Definition propagation_events (self : Brain) (nid : nat) : list (R * Input) :=
  map (fun syn => (time self + delay syn, mkInput (target_id syn) (weight syn)))
      (get_synapses self nid).

(** [_propagate_from] *)
Definition _propagate_from (self : Brain) (nid : nat) : Brain :=
  fold_left (fun b ev => add_input b (fst ev) (snd ev)) (propagation_events self nid) self.

(** The part of [_process_input] after [await neuron.receive_input(...)] is
    reached; the [neuron] object is the one stored at [neuron_id].  Returns
    the brain and the events [_propagate_from] scheduled. *)
Definition _process_input (self : Brain) (nid : nat) (strength : R)
  : result (Brain * list (R * Input)) :=
  neuron <- ngetitem (neurons_by_id self) nid ;;
  r <- receive_input neuron (time self) strength ;;
  let self' := with_neurons_by_id (nsetitem (neurons_by_id self) nid (snd r)) self in
  if fst r then Ok (_propagate_from self' (id (snd r)), propagation_events self' (id (snd r)))
  else Ok (self', []).

(** The first statement of every task: [self.neurons_by_id[neuron_id]].
    All tasks of a batch run it before any of them passes its
    [asyncio.sleep]. *)
Fixpoint lookup_all (self : Brain) (events : list Input) : result unit :=
  match events with
  | [] => Ok tt
  | inp :: rest => _ <- ngetitem (neurons_by_id self) (neuron_id inp) ;; lookup_all self rest
  end.

(** The deliveries of a batch in completion order; returns the brain, the
    delivered inputs and the scheduled events (the last two are a ghost trace). *)
Fixpoint deliver_all (self : Brain) (order : list Input)
  : result (Brain * list Input * list (R * Input)) :=
  match order with
  | [] => Ok (self, [], [])
  | inp :: rest =>
      r <- _process_input self (neuron_id inp) (strength inp) ;;
      r' <- deliver_all (fst r) rest ;;
      Ok (fst (fst r'), inp :: snd (fst r'), snd r ++ snd r')
  end.

(** [min(self.input_buffer.keys())] *)
Definition min_key (k0 : R) (rest : list (R * list Input)) : R :=
  fold_left Rmin (map fst rest) k0.

(** A schedule gives the order in which the tasks of [asyncio.gather] pass
    their [asyncio.sleep(psdelay)]: any permutation of the batch. *)
Definition scheduler := list Input -> list Input.
Definition valid_scheduler (sched : scheduler) : Prop :=
  forall l, Permutation (sched l) l.

(** [propagate] *)
Definition propagate (sched : scheduler) (self : Brain)
  : result (Brain * list Input * list (R * Input)) :=
  match input_buffer self with
  | [] => Ok (self, [], [])
  | (k0, _) :: rest =>
      let self1 := with_time (min_key k0 rest) self in
      let popped := tpop (input_buffer self1) (time self1) [] in
      let self2 := with_input_buffer (snd popped) self1 in
      let events := fst popped in
      _ <- lookup_all self2 events ;;
      deliver_all self2 (sched events)
  end.


End Brain.

(** ** The plain neuron of src/core/neuron.py (also a class [AsyncNeuron]) *)

Module SimpleNeuron.

Record Neuron : Type := mkNeuron {
  id : nat;
  potential : R;
  threshold : R;
  decay : R;
  delay : R;
  last_input_time : R
}.

(** [__init__] *)
Definition init (nid : nat) (thr dec del : R) : Neuron := mkNeuron nid 0 thr dec del 0.

Definition set_potential (p : R) (n : Neuron) : Neuron :=
  mkNeuron (id n) p (threshold n) (decay n) (delay n) (last_input_time n).

Definition set_last_input_time (t : R) (n : Neuron) : Neuron :=
  mkNeuron (id n) (potential n) (threshold n) (decay n) (delay n) t.

(** [get_current_potential]: [max(potential * exp(-decay * dt), 0.0)] *)
Definition get_current_potential (self : Neuron) (current_time : R) : R :=
  let delta_time := current_time - last_input_time self in
  Rmax (potential self * exp (- decay self * delta_time)) 0.

(** [receive_input]; the [await asyncio.sleep(self.delay)] only orders
    deliveries and leaves the state alone. *)
Definition receive_input (self : Neuron) (current_time input_strength : R) : bool * Neuron :=
  let old_potential := get_current_potential self current_time in
  let self1 := set_potential old_potential self in
  let self2 := set_last_input_time current_time self1 in
  let self3 := set_potential (potential self2 + input_strength) self2 in
  let fired := if Rle_dec (threshold self3) (potential self3) then true else false in
  if fired then (true, set_potential 0 self3) else (false, self3).

(** [reset] *)
Definition reset (self : Neuron) (current_time : R) : Neuron :=
  set_last_input_time current_time (set_potential 0 self).

End SimpleNeuron.

(** * Properties of the neuron model *)

Module NeuronFacts.

Import AsyncNeuron.

Lemma receive_input_update_fields (s : Neuron) (t x : R) :
  last_input_time (receive_input_update s t x) = t /\
  arperiod (receive_input_update s t x) = arperiod s /\
  rrperiod (receive_input_update s t x) = rrperiod s /\
  threshold (receive_input_update s t x) = threshold s /\
  rpotential (receive_input_update s t x) = rpotential s.
Proof. repeat split. Qed.

Lemma dynamic_threshold_abs (s : Neuron) (t : R) :
  t - last_input_time s < arperiod s -> _get_dynamic_threshold s t = Ok PInf.
Proof.
  intros H. unfold _get_dynamic_threshold.
  destruct (Rlt_dec _ _); [reflexivity | contradiction].
Qed.

(** C1: in [receive_input] the anchor [last_input_time] already holds the
    current time when the dynamic threshold is evaluated, so the elapsed
    time seen by [_get_dynamic_threshold] is zero; with a positive absolute
    refractory period the threshold is infinite and the call never fires. *)
Theorem receive_input_threshold_at_zero_elapsed :
  forall (s : Neuron) (t x : R),
    last_input_time (receive_input_update s t x) = t /\
    t - last_input_time (receive_input_update s t x) = 0 /\
    (0 < arperiod s ->
       _get_dynamic_threshold (receive_input_update s t x) t = Ok PInf /\
       receive_input s t x = Ok (false, receive_input_update s t x)).
Proof.
  intros s t x.
  destruct (receive_input_update_fields s t x) as [Hl [Ha _]].
  split; [exact Hl|]. split; [rewrite Hl; ring|].
  intros Hpos.
  assert (Hthr : _get_dynamic_threshold (receive_input_update s t x) t = Ok PInf).
  { apply dynamic_threshold_abs. rewrite Hl, Ha. lra. }
  split; [exact Hthr|].
  unfold receive_input. rewrite Hthr. reflexivity.
Qed.

Lemma receive_input_threshold_at_zero_elapsed_witness :
  let s := init 0 0 1 (9/10) 0 (1/100) 0 in
  0 < arperiod s /\
  receive_input s 0 5 = Ok (false, receive_input_update s 0 5).
Proof.
  intros s. split.
  - unfold s, init; simpl; lra.
  - apply (receive_input_threshold_at_zero_elapsed s 0 5). unfold s, init; simpl; lra.
Defined.

(** C7: [get_current_potential] is a function of the neuron state and the
    time alone (it returns no new state) and equals
    [rpotential + (potential - rpotential) * exp (- decay * (t - last_input_time))];
    two calls with the same state and time agree. *)
Theorem get_current_potential_formula :
  forall (s : Neuron) (t : R),
    get_current_potential s t =
      rpotential s + (potential s - rpotential s) * exp (- decay s * (t - last_input_time s)) /\
    get_current_potential s t = get_current_potential s t.
Proof. intros s t. split; reflexivity. Qed.

(** C8: with a positive decay rate and [last_input_time <= t1 <= t2], the
    potential at [t2] lies between the potential at [t1] and the resting
    potential. *)
Theorem get_current_potential_monotone_to_rest
  (s : Neuron) (t1 t2 : R)
  (Hdecay : 0 < decay s) (H12 : t1 <= t2) (H1 : last_input_time s <= t1) :
  (rpotential s <= get_current_potential s t2 <= get_current_potential s t1) \/
  (get_current_potential s t1 <= get_current_potential s t2 <= rpotential s).
Proof.
  unfold get_current_potential.
  set (e1 := exp (- decay s * (t1 - last_input_time s))).
  set (e2 := exp (- decay s * (t2 - last_input_time s))).
  assert (He2 : 0 < e2) by apply exp_pos.
  assert (He : e2 <= e1).
  { unfold e1, e2. destruct (Req_dec t1 t2) as [->|Hne]; [lra|].
    left. apply exp_increasing. nra. }
  destruct (Rle_dec 0 (potential s - rpotential s)) as [Hp|Hp].
  - left. split; nra.
  - right. split; nra.
Qed.

Lemma get_current_potential_monotone_to_rest_witness :
  let s := set_potential 3 (init 0 0 1 (9/10) 0 0 0) in
  (0 < decay s /\ 1 <= 2 /\ last_input_time s <= 1) /\
  ((rpotential s <= get_current_potential s 2 <= get_current_potential s 1) \/
   (get_current_potential s 1 <= get_current_potential s 2 <= rpotential s)).
Proof.
  intros s. split.
  - unfold s, init, set_potential; simpl; lra.
  - apply get_current_potential_monotone_to_rest; unfold s, init, set_potential; simpl; lra.
Defined.

(** C9: with [rrperiod = 0] the dynamic threshold is [inf] inside the
    absolute refractory period and the baseline threshold from its end on,
    with no division; the division by [rrperiod] is reached only for an
    elapsed time in [[arperiod, arperiod + rrperiod)], where [rrperiod] is
    non-zero; [_get_dynamic_threshold] never raises. *)
Theorem dynamic_threshold_no_zero_division :
  (forall (s : Neuron) (t : R), rrperiod s = 0 ->
     (t - last_input_time s < arperiod s -> _get_dynamic_threshold s t = Ok PInf) /\
     (arperiod s <= t - last_input_time s ->
        _get_dynamic_threshold s t = Ok (Fin (threshold s)))) /\
  (forall (s : Neuron) (t : R),
     arperiod s <= t - last_input_time s < arperiod s + rrperiod s ->
     rrperiod s <> 0 /\
     _get_dynamic_threshold s t =
       Ok (Fin (threshold s + threshold s *
                (1 - (t - last_input_time s - arperiod s) / rrperiod s)))) /\
  (forall (s : Neuron) (t : R),
     arperiod s + rrperiod s <= t - last_input_time s -> arperiod s <= t - last_input_time s ->
     _get_dynamic_threshold s t = Ok (Fin (threshold s))) /\
  (forall (s : Neuron) (t : R), exists v, _get_dynamic_threshold s t = Ok v).
Proof.
  split; [|split; [|split]].
  - intros s t Hrr. split.
    + apply dynamic_threshold_abs.
    + intros H. unfold _get_dynamic_threshold.
      destruct (Rlt_dec _ _); [lra|].
      destruct (Rlt_dec _ _); [lra|reflexivity].
  - intros s t [Hlo Hhi].
    assert (Hrr : rrperiod s <> 0) by lra.
    split; [exact Hrr|].
    unfold _get_dynamic_threshold.
    destruct (Rlt_dec _ _); [lra|].
    destruct (Rlt_dec _ _); [|lra].
    unfold py_div. destruct (Req_EM_T _ _); [contradiction|reflexivity].
  - intros s t Hhi Hlo. unfold _get_dynamic_threshold.
    destruct (Rlt_dec _ _); [lra|].
    destruct (Rlt_dec _ _); [lra|reflexivity].
  - intros s t. unfold _get_dynamic_threshold.
    destruct (Rlt_dec _ _); [eexists; reflexivity|].
    destruct (Rlt_dec _ _); [|eexists; reflexivity].
    unfold py_div. destruct (Req_EM_T _ _); [lra|eexists; reflexivity].
Qed.

Lemma dynamic_threshold_no_zero_division_witness :
  let s := init 0 0 1 (9/10) 0 (1/100) 0 in
  (rrperiod s = 0 /\ arperiod s <= 1 - last_input_time s) /\
  _get_dynamic_threshold s 1 = Ok (Fin (threshold s)).
Proof.
  intros s. split; [unfold s, init; simpl; split; lra|].
  apply (proj2 (proj1 dynamic_threshold_no_zero_division s 1 eq_refl)).
  unfold s, init; simpl; lra.
Defined.

End NeuronFacts.

(** * Association-list facts *)

Module DictFacts.

Section Facts.
Context {K V : Type} (keq : forall x y : K, {x = y} + {x <> y}).

Lemma get_setitem_same (d : list (K * V)) (k : K) (v : V) :
  Dict.get keq (Dict.setitem keq d k v) k = Some v.
Proof.
  induction d as [|[k' v'] d IH]; simpl.
  - destruct (keq k k); [reflexivity|contradiction].
  - destruct (keq k k') as [->|Hne]; simpl.
    + destruct (keq k' k'); [reflexivity|contradiction].
    + destruct (keq k k'); [contradiction|exact IH].
Qed.

Lemma get_setitem_other (d : list (K * V)) (k k2 : K) (v : V) :
  k2 <> k -> Dict.get keq (Dict.setitem keq d k v) k2 = Dict.get keq d k2.
Proof.
  intros Hne. induction d as [|[k' v'] d IH]; simpl.
  - destruct (keq k2 k); [contradiction|reflexivity].
  - destruct (keq k k') as [->|Hne']; simpl.
    + destruct (keq k2 k'); [contradiction|reflexivity].
    + destruct (keq k2 k'); [reflexivity|exact IH].
Qed.

Lemma get_map_values (f : V -> V) (d : list (K * V)) (k : K) :
  Dict.get keq (Dict.map_values f d) k = option_map f (Dict.get keq d k).
Proof.
  induction d as [|[k' v'] d IH]; simpl; [reflexivity|].
  destruct (keq k k'); [reflexivity|exact IH].
Qed.

Lemma get_in (d : list (K * V)) (k : K) (v : V) :
  Dict.get keq d k = Some v -> In (k, v) d.
Proof.
  induction d as [|[k' v'] d IH]; simpl; [discriminate|].
  destruct (keq k k') as [->|]; [intros [= ->]; left; reflexivity|].
  intros H; right; exact (IH H).
Qed.

Lemma in_get (d : list (K * V)) (k : K) (v : V) :
  In (k, v) d -> exists v', Dict.get keq d k = Some v'.
Proof.
  induction d as [|[k' v'] d IH]; simpl; [contradiction|].
  destruct (keq k k') as [->|Hne]; [eexists; reflexivity|].
  intros [[= -> ->]|H]; [contradiction|exact (IH H)].
Qed.

Lemma in_setitem (d : list (K * V)) (k k' : K) (v v' : V) :
  In (k, v) (Dict.setitem keq d k' v') -> In (k, v) d \/ (k = k' /\ v = v').
Proof.
  induction d as [|[k0 v0] d IH]; simpl.
  - intros [[= -> ->]|[]]. right; split; reflexivity.
  - destruct (keq k' k0) as [->|Hne]; simpl.
    + intros [[= -> ->]|H]; [right; split; reflexivity|left; right; exact H].
    + intros [H|H]; [left; left; exact H|].
      destruct (IH H) as [H'|H']; [left; right; exact H'|right; exact H'].
Qed.

Lemma in_remove_key (d : list (K * V)) (k k' : K) (v : V) :
  In (k, v) (Dict.remove_key keq d k') -> In (k, v) d /\ k <> k'.
Proof.
  unfold Dict.remove_key. rewrite filter_In. simpl.
  destruct (keq k' k) as [->|Hne]; [intros [_ [=]]|].
  intros [H _]; split; [exact H|intros ->; apply Hne; reflexivity].
Qed.

Lemma get_remove_key_same (d : list (K * V)) (k : K) :
  Dict.get keq (Dict.remove_key keq d k) k = None.
Proof.
  destruct (Dict.get keq (Dict.remove_key keq d k) k) as [v|] eqn:E; [|reflexivity].
  apply get_in, in_remove_key in E. destruct E as [_ E]. contradiction.
Qed.

Lemma get_remove_key_other (d : list (K * V)) (k k2 : K) :
  k2 <> k -> Dict.get keq (Dict.remove_key keq d k) k2 = Dict.get keq d k2.
Proof.
  intros Hne. unfold Dict.remove_key.
  induction d as [|[k0 v0] d IH]; simpl; [reflexivity|].
  destruct (keq k k0) as [->|Hk]; simpl.
  - destruct (keq k2 k0); [contradiction|exact IH].
  - destruct (keq k2 k0); [reflexivity|exact IH].
Qed.


Lemma mem_setitem_present (d : list (K * V)) (k0 k : K) (v : V) :
  Dict.mem keq k0 d = true ->
  Dict.mem keq k (Dict.setitem keq d k0 v) = Dict.mem keq k d.
Proof.
  unfold Dict.mem. intros H.
  destruct (keq k k0) as [->|Hne].
  - rewrite get_setitem_same. destruct (Dict.get keq d k0); [reflexivity|discriminate].
  - rewrite get_setitem_other by exact Hne. reflexivity.
Qed.

End Facts.

Section ListFacts.
Context {K X : Type} (keq : forall x y : K, {x = y} + {x <> y}).

Lemma get_setdefault_append_same (d : list (K * list X)) (k : K) (x : X) :
  Dict.get keq (Dict.setdefault_append keq d k x) k =
    Some (match Dict.get keq d k with Some l => l | None => [] end ++ [x]).
Proof.
  unfold Dict.setdefault_append.
  destruct (Dict.get keq d k); apply get_setitem_same.
Qed.

Lemma get_setdefault_append_other (d : list (K * list X)) (k k2 : K) (x : X) :
  k2 <> k ->
  Dict.get keq (Dict.setdefault_append keq d k x) k2 = Dict.get keq d k2.
Proof.
  intros Hne. unfold Dict.setdefault_append.
  destruct (Dict.get keq d k); apply get_setitem_other; exact Hne.
Qed.

Lemma in_setdefault_append (d : list (K * list X)) (k k' : K) (x e : X) (l : list X) :
  In (k, l) (Dict.setdefault_append keq d k' x) -> In e l ->
  (exists l0, In (k, l0) d /\ In e l0) \/ e = x.
Proof.
  unfold Dict.setdefault_append.
  destruct (Dict.get keq d k') as [l1|] eqn:E; intros H He;
    destruct (in_setitem keq _ _ _ _ _ H) as [H'|[-> ->]].
  - left; exists l; split; assumption.
  - apply in_app_or in He. destruct He as [He|[He|[]]].
    + left; exists l1; split; [exact (get_in keq _ _ _ E)|exact He].
    + right; symmetry; exact He.
  - left; exists l; split; assumption.
  - destruct He as [He|[]]. right; symmetry; exact He.
Qed.
End ListFacts.

End DictFacts.

(** * Properties of SynapseMap *)

Module SynapseFacts.

Import SynapseMap.

(** A reachable map: synapse 0 from neuron 0 to neuron 1 and synapse 1 back. *)
Definition two_neuron_loop : SynapseMap :=
  create_synapse (create_synapse init (mkSynapse 0 (Some 0%nat) (Some 1%nat) 1 0))
                 (mkSynapse 1 (Some 1%nat) (Some 0%nat) 1 0).

(** C2 (code_bug): [disconnect_neuron 0] deletes the records of synapses 0
    and 1 but leaves their ids in neuron 1's outgoing and incoming lists. *)
Theorem disconnect_neuron_leaves_stale_ids :
  exists m', disconnect_neuron two_neuron_loop 0%nat false = Ok m' /\
    dget (_synapses m') 0%nat = None /\ dget (_synapses m') 1%nat = None /\
    dget (_pre_synapses m') 1%nat = Some [1%nat] /\
    dget (_post_synapses m') 1%nat = Some [0%nat].
Proof. eexists. split; [reflexivity|]. repeat split. Qed.

(** C3 (code_bug): [add_neuron] on a map where the id has no lists raises
    [KeyError] at [self._pre_synapses[neuron_id]]; on an id that has both
    lists it leaves every list unchanged. *)
Theorem add_neuron_unregistered_raises :
  add_neuron init 0%nat = Err KeyError /\
  (forall (m : SynapseMap) (nid : nat) (lpre lpost : list nat),
     dget (_pre_synapses m) nid = Some lpre ->
     dget (_post_synapses m) nid = Some lpost ->
     exists m', add_neuron m nid = Ok m' /\ _synapses m' = _synapses m /\
       (forall k, dget (_pre_synapses m') k = dget (_pre_synapses m) k) /\
       (forall k, dget (_post_synapses m') k = dget (_post_synapses m) k)).
Proof.
  split; [reflexivity|].
  intros m nid lpre lpost Hpre Hpost.
  unfold add_neuron, dgetitem, Dict.getitem. fold (@dget (list nat)).
  rewrite Hpre, Hpost. cbn [bind]. eexists. split; [reflexivity|].
  cbn [_synapses _pre_synapses _post_synapses].
  split; [reflexivity|].
  split; intros k; destruct (Nat.eq_dec k nid) as [->|Hne].
  - destruct lpre; [|reflexivity]. unfold dsetitem, dget.
    rewrite DictFacts.get_setitem_same. symmetry; exact Hpre.
  - destruct lpre; [|reflexivity]. apply DictFacts.get_setitem_other; exact Hne.
  - destruct lpost; [|reflexivity]. unfold dsetitem, dget.
    rewrite DictFacts.get_setitem_same. symmetry; exact Hpost.
  - destruct lpost; [|reflexivity]. apply DictFacts.get_setitem_other; exact Hne.
Qed.

End SynapseFacts.

(** * Synapse creation in SynapseMap and Brain *)

Module CreateSynapseFacts.

Import SynapseMap.

(** C4 as stated fails: on the empty map neither neuron 0 nor neuron 1 has
    lists, yet creating a synapse from 0 to 1 changes the map. *)
Lemma create_synapse_unregistered_counterexample :
  dget (_pre_synapses init) 0%nat = None /\ dget (_post_synapses init) 1%nat = None /\
  create_synapse init (mkSynapse 0 (Some 0%nat) (Some 1%nat) 1 0) <> init.
Proof. split; [reflexivity|]. split; [reflexivity|]. discriminate. Qed.

(** C4 amended: [SynapseMap.create_synapse] checks no registration and
    never fails: for non-[None] endpoints it stores the record under its id
    and appends the id to the source's and the target's lists, creating a
    missing list.  [Brain.create_synapse] returns the brain unchanged, with
    no error, when an endpoint is not a registered neuron, and otherwise
    appends the synapse to the source's connection list. *)
Theorem create_synapse_behaviour :
  (forall (m : SynapseMap) (s : Synapse) (pre post : nat),
     pre_id s = Some pre -> post_id s = Some post ->
     dget (_synapses (create_synapse m s)) (syn_id s) = Some s /\
     dget (_pre_synapses (create_synapse m s)) pre =
       Some (match dget (_pre_synapses m) pre with Some l => l | None => [] end ++ [syn_id s]) /\
     dget (_post_synapses (create_synapse m s)) post =
       Some (match dget (_post_synapses m) post with Some l => l | None => [] end ++ [syn_id s])) /\
  (forall (b : Brain.Brain) (from : nat) (syn : Brain.Synapse),
     (Brain.neuron_exists b from && Brain.neuron_exists b (Brain.target_id syn))%bool = false ->
     Brain.create_synapse b from syn = Ok b) /\
  (forall (b : Brain.Brain) (from : nat) (syn : Brain.Synapse) (l : list Brain.Synapse),
     Brain.neuron_exists b from = true -> Brain.neuron_exists b (Brain.target_id syn) = true ->
     Brain.nget (Brain.connections b) from = Some l ->
     exists b', Brain.create_synapse b from syn = Ok b' /\
       Brain.nget (Brain.connections b') from = Some (l ++ [syn]) /\
       (forall k, k <> from -> Brain.nget (Brain.connections b') k = Brain.nget (Brain.connections b) k)).
Proof.
  split; [|split].
  - intros m s pre post Hpre Hpost. unfold create_synapse. rewrite Hpre, Hpost.
    cbn [_synapses _pre_synapses _post_synapses].
    split; [apply DictFacts.get_setitem_same|].
    split; apply DictFacts.get_setdefault_append_same.
  - intros b from syn H. unfold Brain.create_synapse. rewrite H. reflexivity.
  - intros b from syn l Hf Ht Hl. unfold Brain.create_synapse. rewrite Hf, Ht.
    cbn [andb]. unfold Brain.ngetitem, Dict.getitem. fold (@Brain.nget (list Brain.Synapse)).
    rewrite Hl. cbn [bind]. eexists. split; [reflexivity|]. cbn [Brain.connections Brain.with_connections].
    split.
    + apply DictFacts.get_setitem_same.
    + intros k Hk. apply DictFacts.get_setitem_other; exact Hk.
Qed.

Lemma create_synapse_behaviour_witness :
  let s := mkSynapse 0 (Some 0%nat) (Some 1%nat) 1 0 in
  (pre_id s = Some 0%nat /\ post_id s = Some 1%nat) /\
  dget (_pre_synapses (create_synapse init s)) 0%nat = Some ([] ++ [0%nat]).
Proof.
  intros s. split; [split; reflexivity|].
  apply (proj1 create_synapse_behaviour init s 0%nat 1%nat); reflexivity.
Defined.

End CreateSynapseFacts.

(** * Properties of the Brain scheduler *)

Module BrainFacts.

Import AsyncNeuron Brain.

(** [e] is buffered at some timestamp *)
Definition in_buf (buf : list (R * list Input)) (e : Input) : Prop :=
  exists ts l, In (ts, l) buf /\ In e l.

(** [e] is buffered at timestamp [ts] *)
Definition at_ts (buf : list (R * list Input)) (ts : R) (e : Input) : Prop :=
  exists l, tget buf ts = Some l /\ In e l.

(** [e] targets the target of a synapse in the connections *)
Definition conn_target (c : list (nat * list Synapse)) (e : Input) : Prop :=
  exists k l syn, In (k, l) c /\ In syn l /\ neuron_id e = target_id syn.

Lemma receive_input_total (s : Neuron) (t x : R) :
  exists r, receive_input s t x = Ok r.
Proof.
  unfold receive_input, _get_dynamic_threshold.
  set (s3 := receive_input_update s t x).
  destruct (Rlt_dec _ _).
  - cbn [bind]. destruct (ge_ext _ _); eexists; reflexivity.
  - destruct (Rlt_dec _ _).
    + unfold py_div. destruct (Req_EM_T _ _); [lra|].
      cbn [bind]. destruct (ge_ext _ _); eexists; reflexivity.
    + cbn [bind]. destruct (ge_ext _ _); eexists; reflexivity.
Qed.

Lemma add_input_in_buf (b : Brain) (ts : R) (x e : Input) :
  in_buf (input_buffer (add_input b ts x)) e -> in_buf (input_buffer b) e \/ e = x.
Proof.
  intros [ts' [l [Hin He]]].
  destruct (DictFacts.in_setdefault_append Req_EM_T _ _ _ _ _ _ Hin He)
    as [[l0 [H0 H1]]|H]; [left; exists ts', l0; split; assumption|right; exact H].
Qed.

Lemma add_input_keeps (b : Brain) (ts ts' : R) (x e : Input) :
  at_ts (input_buffer b) ts e -> at_ts (input_buffer (add_input b ts' x)) ts e.
Proof.
  intros [l [Hl He]]. unfold at_ts, add_input, tget, tsetdefault_append. cbn [input_buffer with_input_buffer].
  destruct (Req_EM_T ts ts') as [->|Hne].
  - rewrite DictFacts.get_setdefault_append_same. fold tget. rewrite Hl.
    eexists; split; [reflexivity|apply in_or_app; left; exact He].
  - rewrite DictFacts.get_setdefault_append_other by exact Hne.
    exists l; split; assumption.
Qed.

Lemma add_input_adds (b : Brain) (ts : R) (x : Input) :
  at_ts (input_buffer (add_input b ts x)) ts x.
Proof.
  unfold at_ts, add_input, tget, tsetdefault_append. cbn [input_buffer with_input_buffer].
  rewrite DictFacts.get_setdefault_append_same.
  eexists; split; [reflexivity|apply in_or_app; right; left; reflexivity].
Qed.

Lemma fold_add_input_fields (evs : list (R * Input)) (b : Brain) :
  let b' := fold_left (fun b ev => add_input b (fst ev) (snd ev)) evs b in
  time b' = time b /\ neurons b' = neurons b /\ neurons_by_id b' = neurons_by_id b /\
  connections b' = connections b.
Proof.
  revert b. induction evs as [|ev evs IH]; intros b; simpl; [repeat split|].
  destruct (IH (add_input b (fst ev) (snd ev))) as [H1 [H2 [H3 H4]]].
  repeat split; [rewrite H1|rewrite H2|rewrite H3|rewrite H4]; reflexivity.
Qed.

Lemma fold_add_input_in_buf (evs : list (R * Input)) (b : Brain) (e : Input) :
  in_buf (input_buffer (fold_left (fun b ev => add_input b (fst ev) (snd ev)) evs b)) e ->
  in_buf (input_buffer b) e \/ exists ts, In (ts, e) evs.
Proof.
  revert b. induction evs as [|ev evs IH]; intros b; simpl; [left; exact H|].
  intros H. destruct (IH _ H) as [H'|[ts Hts]].
  - destruct (add_input_in_buf _ _ _ _ H') as [H2| ->]; [left; exact H2|].
    right; exists (fst ev); left; destruct ev; reflexivity.
  - right; exists ts; right; exact Hts.
Qed.

Lemma fold_add_input_keeps (evs : list (R * Input)) (b : Brain) (ts : R) (e : Input) :
  at_ts (input_buffer b) ts e ->
  at_ts (input_buffer (fold_left (fun b ev => add_input b (fst ev) (snd ev)) evs b)) ts e.
Proof.
  revert b. induction evs as [|ev evs IH]; intros b H; simpl; [exact H|].
  apply IH, add_input_keeps, H.
Qed.

Lemma fold_add_input_adds (evs : list (R * Input)) (b : Brain) (ts : R) (e : Input) :
  In (ts, e) evs ->
  at_ts (input_buffer (fold_left (fun b ev => add_input b (fst ev) (snd ev)) evs b)) ts e.
Proof.
  revert b. induction evs as [|ev evs IH]; intros b H; simpl; [contradiction|].
  destruct H as [->|H].
  - apply fold_add_input_keeps, add_input_adds.
  - apply IH, H.
Qed.

Lemma propagation_events_targets (b : Brain) (nid : nat) (ts : R) (e : Input) :
  In (ts, e) (propagation_events b nid) -> conn_target (connections b) e.
Proof.
  unfold propagation_events, get_synapses. rewrite in_map_iff.
  intros [syn [Heq Hin]]. injection Heq as _ <-.
  destruct (nget (connections b) nid) as [l|] eqn:E; [|contradiction].
  exists nid, l, syn. split; [exact (DictFacts.get_in Nat.eq_dec _ _ _ E)|].
  split; [exact Hin|reflexivity].
Qed.

(** What one delivery changes: only the neuron states and the buffer, which
    keeps its events and gains those scheduled from the connections. *)
Definition step_ok (self b' : Brain) (sch : list (R * Input)) : Prop :=
  connections b' = connections self /\ time b' = time self /\ neurons b' = neurons self /\
  (forall k, nmem k (neurons_by_id b') = nmem k (neurons_by_id self)) /\
  (forall e, in_buf (input_buffer b') e ->
     in_buf (input_buffer self) e \/ conn_target (connections self) e) /\
  (forall ts e, at_ts (input_buffer self) ts e -> at_ts (input_buffer b') ts e) /\
  (forall ts e, In (ts, e) sch -> at_ts (input_buffer b') ts e).

Lemma step_ok_refl (self : Brain) : step_ok self self [].
Proof.
  repeat split; auto. intros ts e [].
Qed.

Lemma step_ok_trans (b1 b2 b3 : Brain) (s1 s2 : list (R * Input)) :
  step_ok b1 b2 s1 -> step_ok b2 b3 s2 -> step_ok b1 b3 (s1 ++ s2).
Proof.
  intros [C1 [T1 [N1 [M1 [B1 [K1 A1]]]]]] [C2 [T2 [N2 [M2 [B2 [K2 A2]]]]]].
  split; [congruence|]. split; [congruence|]. split; [congruence|].
  split; [intros k; rewrite M2; apply M1|].
  split; [intros e H; destruct (B2 e H) as [H'|H']; [apply B1, H'|right; rewrite <- C1; exact H']|].
  split; [intros ts e H; apply K2, K1, H|].
  intros ts e H. apply in_app_or in H. destruct H as [H|H]; [apply K2, A1, H|apply A2, H].
Qed.

Lemma process_input_ok (self : Brain) (nid : nat) (str : R) (b' : Brain) (sch : list (R * Input)) :
  _process_input self nid str = Ok (b', sch) -> step_ok self b' sch.
Proof.
  unfold _process_input, ngetitem, Dict.getitem. fold (@nget Neuron).
  destruct (nget (neurons_by_id self) nid) as [neuron|] eqn:Hn; cbn [bind]; [|discriminate].
  destruct (receive_input neuron (time self) str) as [[fired n']|] eqn:Hr; cbn [bind]; [|discriminate].
  cbn [fst snd].
  set (self' := with_neurons_by_id (nsetitem (neurons_by_id self) nid n') self).
  assert (Hmem : forall k, nmem k (neurons_by_id self') = nmem k (neurons_by_id self)).
  { intros k. apply DictFacts.mem_setitem_present. unfold Dict.mem. fold (@nget Neuron).
    rewrite Hn. reflexivity. }
  destruct fired; intros [= <- <-].
  - destruct (fold_add_input_fields (propagation_events self' (id n')) self') as [T [N [M C]]].
    unfold _propagate_from. repeat split.
    + exact C.
    + exact T.
    + exact N.
    + intros k. rewrite M. apply Hmem.
    + intros e H. destruct (fold_add_input_in_buf _ _ _ H) as [H'|[ts H']].
      * left; exact H'.
      * right. exact (propagation_events_targets _ _ _ _ H').
    + intros ts e H. apply fold_add_input_keeps. exact H.
    + intros ts e H. apply fold_add_input_adds. exact H.
  - repeat split.
    + apply Hmem.
    + intros e H; left; exact H.
    + intros ts e H; exact H.
    + intros ts e [].
Qed.

Lemma process_input_total (self : Brain) (nid : nat) (str : R) :
  nmem nid (neurons_by_id self) = true -> exists r, _process_input self nid str = Ok r.
Proof.
  unfold nmem, Dict.mem, _process_input, ngetitem, Dict.getitem. fold (@nget Neuron).
  destruct (nget (neurons_by_id self) nid) as [neuron|]; [|discriminate]. intros _.
  cbn [bind]. destruct (receive_input_total neuron (time self) str) as [[fired n'] Hr].
  rewrite Hr. cbn [bind]. destruct fired; eexists; reflexivity.
Qed.

Lemma deliver_all_ok (order : list Input) (self b' : Brain) (d : list Input) (sch : list (R * Input)) :
  deliver_all self order = Ok (b', d, sch) -> d = order /\ step_ok self b' sch.
Proof.
  revert self b' d sch. induction order as [|inp order IH]; intros self b' d sch;
    cbn [deliver_all].
  - intros [= <- <- <-]. split; [reflexivity|apply step_ok_refl].
  - destruct (_process_input self (neuron_id inp) (strength inp)) as [[b1 s1]|] eqn:H1;
      cbn [bind]; [|discriminate].
    cbn [fst snd].
    destruct (deliver_all b1 order) as [[[b2 d2] s2]|] eqn:H2; cbn [bind]; [|discriminate].
    cbn [fst snd]. intros [= <- <- <-].
    destruct (IH _ _ _ _ H2) as [-> Hok2].
    split; [reflexivity|].
    exact (step_ok_trans _ _ _ _ _ (process_input_ok _ _ _ _ _ H1) Hok2).
Qed.

Lemma deliver_all_total (order : list Input) (self : Brain) :
  (forall e, In e order -> nmem (neuron_id e) (neurons_by_id self) = true) ->
  exists r, deliver_all self order = Ok r.
Proof.
  revert self. induction order as [|inp order IH]; intros self H; simpl; [eexists; reflexivity|].
  destruct (process_input_total self (neuron_id inp) (strength inp)) as [[b1 s1] H1];
    [apply H; left; reflexivity|].
  rewrite H1. cbn [bind fst snd].
  destruct (process_input_ok _ _ _ _ _ H1) as [_ [_ [_ [M _]]]].
  destruct (IH b1) as [[[b2 d2] s2] H2].
  { intros e He. rewrite M. apply H. right; exact He. }
  rewrite H2. cbn [bind]. eexists; reflexivity.
Qed.

Lemma lookup_all_ok (self : Brain) (l : list Input) :
  (forall e, In e l -> nmem (neuron_id e) (neurons_by_id self) = true) ->
  lookup_all self l = Ok tt.
Proof.
  induction l as [|inp l IH]; intros H; simpl; [reflexivity|].
  unfold ngetitem, Dict.getitem. fold (@nget Neuron).
  assert (Hm := H inp (or_introl eq_refl)). unfold nmem, Dict.mem in Hm. fold (@nget Neuron) in Hm.
  destruct (nget (neurons_by_id self) (neuron_id inp)); [|discriminate].
  cbn [bind]. apply IH. intros e He. apply H. right; exact He.
Qed.

Lemma lookup_all_missing (self : Brain) (l : list Input) (e : Input) :
  In e l -> nget (neurons_by_id self) (neuron_id e) = None -> lookup_all self l = Err KeyError.
Proof.
  induction l as [|inp l IH]; intros Hin Hmiss; simpl; [contradiction|].
  unfold ngetitem, Dict.getitem. fold (@nget Neuron).
  destruct Hin as [->|Hin]; [rewrite Hmiss; reflexivity|].
  destruct (nget (neurons_by_id self) (neuron_id inp)); cbn [bind]; [|reflexivity].
  apply IH; assumption.
Qed.

Lemma min_key_in (k0 : R) (rest : list (R * list Input)) :
  In (min_key k0 rest) (k0 :: map fst rest).
Proof.
  unfold min_key. generalize (map fst rest) as ks. clear rest.
  intros ks. revert k0. induction ks as [|k ks IH]; intros k0; simpl; [left; reflexivity|].
  destruct (IH (Rmin k0 k)) as [H|H].
  - assert (Hm : Rmin k0 k = k0 \/ Rmin k0 k = k)
      by (unfold Rmin; destruct (Rle_dec k0 k); [left|right]; reflexivity).
    destruct Hm as [Hm|Hm]; rewrite Hm in *; [left; exact H|right; left; exact H].
  - right; right; exact H.
Qed.

(** The batch [propagate] pops is the bucket stored at the minimum key. *)
Lemma pop_min_bucket (k0 : R) (l0 : list Input) (rest : list (R * list Input)) :
  let buf := (k0, l0) :: rest in
  let p := tpop buf (min_key k0 rest) [] in
  tget buf (min_key k0 rest) = Some (fst p) /\
  (forall k v, In (k, v) (snd p) -> In (k, v) buf).
Proof.
  intros buf p.
  assert (Hin : In (min_key k0 rest) (map fst buf)) by (apply min_key_in).
  apply in_map_iff in Hin. destruct Hin as [[k v] [Hk Hkv]]. cbn [fst] in Hk. subst k.
  destruct (DictFacts.in_get Req_EM_T _ _ _ Hkv) as [v' Hv'].
  unfold p, buf, tpop, tget, Dict.pop in *. rewrite Hv'. cbn [fst snd].
  split; [reflexivity|].
  intros k w Hw. exact (proj1 (DictFacts.in_remove_key Req_EM_T _ _ _ _ Hw)).
Qed.

Lemma propagate_ok (sched : scheduler) (b b' : Brain) (d : list Input) (sch : list (R * Input)) :
  propagate sched b = Ok (b', d, sch) ->
  (input_buffer b = [] /\ b' = b /\ d = [] /\ sch = []) \/
  (exists k0 l0 rest bucket,
     input_buffer b = (k0, l0) :: rest /\
     tget (input_buffer b) (min_key k0 rest) = Some bucket /\
     d = sched bucket /\ time b' = min_key k0 rest /\
     connections b' = connections b /\ neurons b' = neurons b /\
     (forall k, nmem k (neurons_by_id b') = nmem k (neurons_by_id b)) /\
     (forall e, in_buf (input_buffer b') e ->
        in_buf (input_buffer b) e \/ conn_target (connections b) e) /\
     (forall ts e, In (ts, e) sch -> at_ts (input_buffer b') ts e)).
Proof.
  unfold propagate. destruct (input_buffer b) as [|[k0 l0] rest] eqn:Hbuf.
  - intros [= <- <- <-]. left; repeat split; assumption.
  - destruct (pop_min_bucket k0 l0 rest) as [Hget Hrem].
    cbn [time with_time input_buffer]. rewrite Hbuf.
    destruct (lookup_all _ _) as [[]|]; cbn [bind]; [|discriminate].
    intros Hd. destruct (deliver_all_ok _ _ _ _ _ Hd) as [Hdo [C [T [N [M [B [_ A]]]]]]].
    right. exists k0, l0, rest, (fst (tpop ((k0, l0) :: rest) (min_key k0 rest) [])).
    split; [reflexivity|]. split; [exact Hget|]. split; [exact Hdo|].
    split; [exact T|]. split; [exact C|]. split; [exact N|]. split; [exact M|].
    split; [|exact A].
    intros e He. destruct (B e He) as [[ts [l [Hl Hel]]]|H]; [|right; exact H].
    left. exists ts, l. split; [apply Hrem; exact Hl|exact Hel].
Qed.



Lemma propagate_total (sched : scheduler) (b : Brain) :
  valid_scheduler sched ->
  (forall e, in_buf (input_buffer b) e -> nmem (neuron_id e) (neurons_by_id b) = true) ->
  exists r, propagate sched b = Ok r.
Proof.
  intros Hs Hreg. unfold propagate.
  destruct (input_buffer b) as [|[k0 l0] rest] eqn:Hbuf; [eexists; reflexivity|].
  destruct (pop_min_bucket k0 l0 rest) as [Hget _].
  cbn [time with_time input_buffer]. rewrite Hbuf.
  set (bucket := fst (tpop ((k0, l0) :: rest) (min_key k0 rest) [])) in *.
  assert (Hb : forall e, In e bucket -> nmem (neuron_id e) (neurons_by_id b) = true).
  { intros e He. apply Hreg. exists (min_key k0 rest), bucket. split; [|exact He].
    try rewrite Hbuf. exact (DictFacts.get_in Req_EM_T _ _ _ Hget). }
  rewrite lookup_all_ok by exact Hb. cbn [bind].
  apply deliver_all_total. intros e He. apply Hb.
  apply (Permutation_in _ (Hs bucket)). exact He.
Qed.





Lemma delete_neuron_fields (b : Brain) (n : nat) :
  neuron_exists b n = true ->
  neurons (delete_neuron b n) = set_remove n (neurons b) /\
  neurons_by_id (delete_neuron b n) =
    (if nmem n (neurons_by_id b) then nremove (neurons_by_id b) n else neurons_by_id b) /\
  connections (delete_neuron b n) = connections (disconnect_neuron b n) /\
  input_buffer (delete_neuron b n) =
    Dict.map_values (filter (fun inp => if Nat.eq_dec (neuron_id inp) n then false else true))
      (input_buffer b).
Proof.
  intros H. unfold delete_neuron. rewrite H.
  unfold neuron_exists in H. destruct b as [t ns nbi conns ins outs buf]. cbn [neurons] in H.
  destruct (is_input_neuron _ n); destruct (is_output_neuron _ n);
    cbv beta iota zeta delta [disconnect_neuron with_input_neurons with_output_neurons
      with_connections with_input_buffer with_neurons_by_id with_neurons
      time neurons neurons_by_id connections input_buffer input_neurons output_neurons];
    destruct (nmem n nbi); rewrite H; repeat split.
Qed.




Lemma propagate_missing_target (sched : scheduler) (b : Brain) (k0 : R) (l0 : list Input)
  (rest : list (R * list Input)) (bucket : list Input) (e : Input) :
  input_buffer b = (k0, l0) :: rest ->
  tget (input_buffer b) (min_key k0 rest) = Some bucket ->
  In e bucket -> nget (neurons_by_id b) (neuron_id e) = None ->
  propagate sched b = Err KeyError.
Proof.
  intros Hbuf Hget He Hmiss. unfold propagate. rewrite Hbuf.
  destruct (pop_min_bucket k0 l0 rest) as [Hget' _].
  rewrite Hbuf in Hget. rewrite Hget in Hget'. injection Hget' as Hb.
  unfold with_time. cbn [time input_buffer]. rewrite Hbuf, <- Hb.
  rewrite (lookup_all_missing _ _ e He) by exact Hmiss. reflexivity.
Qed.



(** A brain whose neuron 0 has a synapse of delay 0 onto itself and one
    pending supra-threshold event at time 0. *)
Definition self_loop_brain : Brain :=
  mkBrain 0 [0%nat] [(0%nat, AsyncNeuron.init 0 0 1 0 0 0 0)] [(0%nat, [mkSynapse 0 1 0])] [] []
    [(0, [mkInput 0 1])].

(** C5: a call of [propagate] on a non-empty buffer delivers exactly the
    bucket stored at the minimum timestamp before the call (in the order
    of the schedule, a permutation of it), and every event scheduled by a
    neuron that fires during the call, at any timestamp including the one
    just processed, is left in the buffer of the resulting brain, for the
    next call. *)
Theorem propagate_defers_new_events
  (sched : scheduler) (Hs : valid_scheduler sched) (b b' : Brain) (d : list Input)
  (sch : list (R * Input)) (k0 : R) (l0 : list Input) (rest : list (R * list Input))
  (Hbuf : input_buffer b = (k0, l0) :: rest) (Hp : propagate sched b = Ok (b', d, sch)) :
  exists bucket,
    tget (input_buffer b) (min_key k0 rest) = Some bucket /\
    d = sched bucket /\ Permutation d bucket /\ time b' = min_key k0 rest /\
    (forall ts e, In (ts, e) sch -> at_ts (input_buffer b') ts e).
Proof.
  destruct (propagate_ok _ _ _ _ _ Hp) as [[Hnil _]|
    [k1 [l1 [rest1 [bucket [Hbuf1 [Hget [Hd [T [_ [_ [_ [_ A]]]]]]]]]]]]].
  - rewrite Hbuf in Hnil; discriminate.
  - rewrite Hbuf in Hbuf1. injection Hbuf1 as <- <- <-.
    exists bucket. split; [exact Hget|]. split; [exact Hd|].
    split; [rewrite Hd; apply Hs|]. split; [exact T|exact A].
Qed.

Lemma propagate_defers_new_events_witness :
  exists b' d sch,
    (valid_scheduler (fun l => l) /\
     input_buffer self_loop_brain = (0, [mkInput 0 1]) :: [] /\
     propagate (fun l => l) self_loop_brain = Ok (b', d, sch)) /\
    exists bucket,
      tget (input_buffer self_loop_brain) (min_key 0 []) = Some bucket /\
      d = bucket /\ Permutation d bucket /\ time b' = min_key 0 [] /\
      (forall ts e, In (ts, e) sch -> at_ts (input_buffer b') ts e).
Proof.
  assert (Hs : valid_scheduler (fun l => l)) by (intros l; apply Permutation_refl).
  destruct (propagate_total (fun l => l) self_loop_brain Hs) as [[[b' d] sch] Hp].
  { intros e [ts [l [[[= <- <-]|[]] [<-|[]]]]]. reflexivity. }
  exists b', d, sch. split; [split; [exact Hs|split; [reflexivity|exact Hp]]|].
  exact (propagate_defers_new_events (fun l => l) Hs self_loop_brain b' d sch 0
           [mkInput 0 1] [] eq_refl Hp).
Defined.






(** C10: [add_input] files an event under its timestamp whatever its
    target, without looking at the neurons; a [propagate] that pops a
    bucket holding an event whose target is not stored raises [KeyError]. *)
Theorem add_input_unchecked_propagate_raises :
  (forall (b : Brain) (ts : R) (e : Input),
     at_ts (input_buffer (add_input b ts e)) ts e /\
     neurons_by_id (add_input b ts e) = neurons_by_id b /\
     neurons (add_input b ts e) = neurons b) /\
  (forall (sched : scheduler) (b : Brain) (k0 : R) (l0 : list Input)
          (rest : list (R * list Input)) (bucket : list Input) (e : Input),
     input_buffer b = (k0, l0) :: rest ->
     tget (input_buffer b) (min_key k0 rest) = Some bucket ->
     In e bucket -> nget (neurons_by_id b) (neuron_id e) = None ->
     propagate sched b = Err KeyError).
Proof.
  split.
  - intros b ts e. split; [apply add_input_adds|split; reflexivity].
  - exact propagate_missing_target.
Qed.

Lemma add_input_unchecked_propagate_raises_witness :
  let b := add_input Brain.init 0 (mkInput 7 1) in
  (input_buffer b = (0, [mkInput 7 1]) :: [] /\
   tget (input_buffer b) (min_key 0 []) = Some [mkInput 7 1] /\
   In (mkInput 7 1) [mkInput 7 1] /\ nget (neurons_by_id b) 7%nat = None) /\
  propagate (fun l => l) b = Err KeyError.
Proof.
  intros b.
  assert (Hget : tget (input_buffer b) (min_key 0 []) = Some [mkInput 7 1]).
  { unfold tget, min_key. simpl. destruct (Req_EM_T 0 0); [reflexivity|contradiction]. }
  split; [split; [reflexivity|split; [exact Hget|split; [left; reflexivity|reflexivity]]]|].
  exact (proj2 add_input_unchecked_propagate_raises (fun l => l) b 0 [mkInput 7 1] []
           [mkInput 7 1] (mkInput 7 1) eq_refl Hget (or_introl eq_refl) eq_refl).
Defined.

End BrainFacts.

(** * Properties of the plain neuron of src/core/neuron.py *)

Module SimpleNeuronFacts.

Import SimpleNeuron.

(** With a non-negative decay rate the decayed potential never grows as
    time goes on, whatever the sign of the stored potential. *)
Theorem simple_get_current_potential_nonincreasing
  (s : Neuron) (t1 t2 : R) (Hdecay : 0 <= decay s) (H12 : t1 <= t2) :
  get_current_potential s t2 <= get_current_potential s t1.
Proof.
  unfold get_current_potential.
  set (e1 := exp (- decay s * (t1 - last_input_time s))).
  set (e2 := exp (- decay s * (t2 - last_input_time s))).
  assert (He2 : 0 < e2) by apply exp_pos.
  assert (He : e2 <= e1).
  { unfold e1, e2.
    destruct (Req_dec (- decay s * (t2 - last_input_time s))
                      (- decay s * (t1 - last_input_time s))) as [E|Hne].
    - rewrite E; lra.
    - left. apply exp_increasing. nra. }
  unfold Rmax. destruct (Rle_dec (potential s * e2) 0); destruct (Rle_dec (potential s * e1) 0); nra.
Qed.

Lemma simple_get_current_potential_nonincreasing_witness :
  let s := set_potential 3 (init 0 1 (9/10) 0) in
  (0 <= decay s /\ 1 <= 2) /\ get_current_potential s 2 <= get_current_potential s 1.
Proof.
  intros s. split; [unfold s, init, set_potential; simpl; lra|].
  apply simple_get_current_potential_nonincreasing; unfold s, init, set_potential; simpl; lra.
Defined.

(** With a positive threshold, [potential < threshold] is an invariant of
    [receive_input]; and an input of non-positive strength, delivered no
    earlier than the last one to a neuron with non-negative decay, never
    makes it fire. *)
Theorem simple_receive_input_subthreshold_invariant
  (s : Neuron) (t x : R) (Hthr : 0 < threshold s) (Hp : potential s < threshold s) :
  potential (snd (receive_input s t x)) < threshold (snd (receive_input s t x)) /\
  (0 <= decay s -> last_input_time s <= t -> x <= 0 -> fst (receive_input s t x) = false).
Proof.
  unfold receive_input. cbn [potential threshold set_potential set_last_input_time].
  split.
  - destruct (Rle_dec (threshold s) (get_current_potential s t + x)); cbn; lra.
  - intros Hd Ht Hx.
    assert (Hg : get_current_potential s t < threshold s).
    { unfold get_current_potential.
      assert (He : exp (- decay s * (t - last_input_time s)) <= 1).
      { rewrite <- exp_0. destruct (Req_dec (- decay s * (t - last_input_time s)) 0) as [E|E].
        - rewrite E; lra.
        - left. apply exp_increasing. nra. }
      assert (He0 : 0 < exp (- decay s * (t - last_input_time s))) by apply exp_pos.
      unfold Rmax. destruct (Rle_dec _ 0); nra. }
    destruct (Rle_dec (threshold s) (get_current_potential s t + x)); [lra|reflexivity].
Qed.

Lemma simple_receive_input_subthreshold_invariant_witness :
  let s := init 0 1 (9/10) 0 in
  (0 < threshold s /\ potential s < threshold s) /\
  (potential (snd (receive_input s 1 (-1/2))) < threshold (snd (receive_input s 1 (-1/2))) /\
   (0 <= decay s -> last_input_time s <= 1 -> -1/2 <= 0 -> fst (receive_input s 1 (-1/2)) = false)).
Proof.
  intros s. split; [unfold s, init; simpl; lra|].
  apply simple_receive_input_subthreshold_invariant; unfold s, init; simpl; lra.
Defined.

(** After [reset] the neuron holds potential [0] at every later time, and
    the next input fires it exactly when its strength reaches the threshold. *)
Theorem simple_reset_then_receive (s : Neuron) (t0 t x : R) :
  last_input_time (reset s t0) = t0 /\
  get_current_potential (reset s t0) t = 0 /\
  (fst (receive_input (reset s t0) t x) = true <-> threshold s <= x).
Proof.
  assert (H0 : get_current_potential (reset s t0) t = 0).
  { unfold get_current_potential, reset. cbn. rewrite Rmult_0_l. unfold Rmax.
    destruct (Rle_dec 0 0); reflexivity. }
  split; [reflexivity|]. split; [exact H0|].
  unfold receive_input. rewrite H0. cbn [potential threshold set_potential set_last_input_time reset].
  destruct (Rle_dec (threshold s) (0 + x)); cbn; split; intros; try lra; try reflexivity;
    try discriminate; lra.
Qed.

End SimpleNeuronFacts.

(** * Further properties of AsyncNeuron *)

Module NeuronExtraFacts.

Import AsyncNeuron.

Lemma receive_input_cases (s : Neuron) (t x : R) :
  forall fired s', receive_input s t x = Ok (fired, s') ->
    s' = (if fired then set_potential (rpotential s) (receive_input_update s t x)
          else receive_input_update s t x) /\
    fired = ge_ext (potential (receive_input_update s t x)) match _get_dynamic_threshold (receive_input_update s t x) t with Ok v => v | Err _ => PInf end.
Proof.
  intros fired s' H. unfold receive_input in H.
  destruct (_get_dynamic_threshold (receive_input_update s t x) t) as [v|e]; cbn [bind] in H;
    [|discriminate].
  destruct (ge_ext _ v) eqn:E; injection H as <- <-; split; reflexivity || (symmetry; exact E).
Qed.

Lemma receive_input_update_threshold (s : Neuron) (t x : R) :
  _get_dynamic_threshold (receive_input_update s t x) t =
    if Rlt_dec 0 (arperiod s) then Ok PInf
    else if Rlt_dec 0 (arperiod s + rrperiod s) then
      q <- py_div (0 - arperiod s) (rrperiod s) ;;
      Ok (Fin (threshold s + threshold s * (1 - q)))
    else Ok (Fin (threshold s)).
Proof.
  unfold _get_dynamic_threshold. cbn [receive_input_update set_potential set_last_input_time
    last_input_time arperiod rrperiod threshold].
  replace (t - t) with 0 by ring. reflexivity.
Qed.

(** With no refractory periods ([arperiod = rrperiod = 0], the
    [NON_REFRACTORY] preset) the neuron fires exactly when the decayed
    potential plus the input reaches the baseline threshold. *)
Theorem receive_input_non_refractory_rule
  (s : Neuron) (t x : R) (Har : arperiod s = 0) (Hrr : rrperiod s = 0) :
  forall fired s', receive_input s t x = Ok (fired, s') ->
    (fired = true <-> threshold s <= get_current_potential s t + x).
Proof.
  intros fired s' H. destruct (receive_input_cases s t x fired s' H) as [_ ->].
  rewrite receive_input_update_threshold.
  destruct (Rlt_dec 0 (arperiod s)); [lra|]. destruct (Rlt_dec 0 (arperiod s + rrperiod s)); [lra|].
  cbn [ge_ext receive_input_update set_potential set_last_input_time potential].
  destruct (Rle_dec (threshold s) (get_current_potential s t + x)); split; intros; try lra;
    try reflexivity; try discriminate; contradiction.
Qed.

Lemma receive_input_non_refractory_rule_witness :
  let s := init 0 0 1 (9/10) 0 0 0 in
  (arperiod s = 0 /\ rrperiod s = 0) /\
  exists fired s', receive_input s 0 2 = Ok (fired, s') /\
    (fired = true <-> threshold s <= get_current_potential s 0 + 2).
Proof.
  intros s. split; [split; reflexivity|].
  destruct (BrainFacts.receive_input_total s 0 2) as [[fired s'] H].
  exists fired, s'. split; [exact H|].
  exact (receive_input_non_refractory_rule s 0 2 eq_refl eq_refl fired s' H).
Defined.

(** With no absolute but a positive relative refractory period, the
    elapsed time seen at the threshold test is zero (see C1), so the
    relative window is entered at its start and the neuron fires exactly
    when the decayed potential plus the input reaches twice the threshold. *)
Theorem receive_input_relative_window_doubles_threshold
  (s : Neuron) (t x : R) (Har : arperiod s = 0) (Hrr : 0 < rrperiod s) :
  forall fired s', receive_input s t x = Ok (fired, s') ->
    (fired = true <-> 2 * threshold s <= get_current_potential s t + x).
Proof.
  intros fired s' H. destruct (receive_input_cases s t x fired s' H) as [_ ->].
  rewrite receive_input_update_threshold.
  destruct (Rlt_dec 0 (arperiod s)); [lra|]. destruct (Rlt_dec 0 (arperiod s + rrperiod s)); [|lra].
  unfold py_div. destruct (Req_EM_T (rrperiod s) 0); [lra|]. cbn [bind].
  rewrite Har. replace (threshold s + threshold s * (1 - (0 - 0) / rrperiod s))
    with (2 * threshold s) by (field; lra).
  cbn [ge_ext receive_input_update set_potential set_last_input_time potential].
  destruct (Rle_dec (2 * threshold s) (get_current_potential s t + x)); split; intros; try lra;
    try reflexivity; try discriminate; contradiction.
Qed.

Lemma receive_input_relative_window_doubles_threshold_witness :
  let s := init 0 0 1 (9/10) 0 0 (1/100) in
  (arperiod s = 0 /\ 0 < rrperiod s) /\
  exists fired s', receive_input s 0 (3/2) = Ok (fired, s') /\
    (fired = true <-> 2 * threshold s <= get_current_potential s 0 + 3/2).
Proof.
  intros s. split; [unfold s, init; simpl; split; [reflexivity|lra]|].
  destruct (BrainFacts.receive_input_total s 0 (3/2)) as [[fired s'] H].
  exists fired, s'. split; [exact H|].
  refine (receive_input_relative_window_doubles_threshold s 0 (3/2) eq_refl _ fired s' H).
  unfold s, init; simpl; lra.
Defined.

(** Superposition: after an input [x] at [t1] that does not make the neuron
    fire, the potential at any time [t2] is the one it would have had
    without the input plus [x * exp (- decay * (t2 - t1))]. *)
Theorem receive_input_silent_superposition
  (s s' : Neuron) (t1 x : R) (H : receive_input s t1 x = Ok (false, s')) :
  forall t2, get_current_potential s' t2 =
    get_current_potential s t2 + x * exp (- decay s * (t2 - t1)).
Proof.
  intros t2. destruct (receive_input_cases s t1 x false s' H) as [-> _].
  cbv iota.
  unfold get_current_potential, receive_input_update, set_potential, set_last_input_time.
  cbn [potential rpotential decay last_input_time].
  replace (- decay s * (t2 - last_input_time s))
    with (- decay s * (t1 - last_input_time s) + - decay s * (t2 - t1)) by ring.
  rewrite exp_plus. unfold get_current_potential. ring.
Qed.

Lemma receive_input_silent_superposition_witness :
  let s := init 0 0 1 (9/10) 0 0 0 in
  exists s', receive_input s 1 (1/2) = Ok (false, s') /\
    get_current_potential s' 3 = get_current_potential s 3 + 1/2 * exp (- decay s * (3 - 1)).
Proof.
  intros s.
  assert (H : receive_input s 1 (1/2) = Ok (false, receive_input_update s 1 (1/2))).
  { unfold receive_input. rewrite receive_input_update_threshold. unfold s, init.
    cbn [arperiod rrperiod threshold].
    destruct (Rlt_dec 0 0); [lra|]. destruct (Rlt_dec 0 (0 + 0)); [lra|]. cbn [bind ge_ext].
    unfold get_current_potential. cbn.
    destruct (Rle_dec 1 _) as [Hle|]; [|reflexivity].
    exfalso. revert Hle. unfold get_current_potential. cbn [potential rpotential decay last_input_time].
    replace (0 + (0 - 0) * exp (- (9 / 10) * (1 - 0))) with 0 by ring. lra. }
  exists (receive_input_update s 1 (1/2)). split; [exact H|].
  exact (receive_input_silent_superposition s _ 1 (1/2) H 3).
Defined.

(** After the module-level [reset] the potential sits at the resting
    value at every time. *)
Theorem reset_stays_at_rest (s : Neuron) (t0 t : R) :
  last_input_time (reset s t0) = t0 /\ get_current_potential (reset s t0) t = rpotential s.
Proof.
  split; [reflexivity|]. unfold get_current_potential, reset, set_last_input_time, set_potential.
  cbn [potential rpotential decay last_input_time]. ring.
Qed.

End NeuronExtraFacts.

(** * Further properties of SynapseMap *)

Module SynapseMapFacts.

Import SynapseMap.

Lemma count_occ_list_remove (s x : nat) (l : list nat) :
  count_occ Nat.eq_dec (list_remove s l) x =
    if Nat.eq_dec x s then pred (count_occ Nat.eq_dec l x) else count_occ Nat.eq_dec l x.
Proof.
  induction l as [|y l IH]; cbn [list_remove]; [destruct (Nat.eq_dec x s); reflexivity|].
  destruct (Nat.eq_dec s y) as [<-|Hsy]; cbn [count_occ].
  - destruct (Nat.eq_dec s x), (Nat.eq_dec x s); subst; try congruence; reflexivity.
  - rewrite IH. destruct (Nat.eq_dec y x), (Nat.eq_dec x s); subst; try congruence; reflexivity.
Qed.

Lemma list_remove_app_last (x : nat) (l : list nat) :
  ~ In x l -> list_remove x (l ++ [x]) = l.
Proof.
  induction l as [|y l IH]; intros Hn; cbn [list_remove app].
  - destruct (Nat.eq_dec x x); [reflexivity|contradiction].
  - destruct (Nat.eq_dec x y) as [->|]; [exfalso; apply Hn; left; reflexivity|].
    rewrite IH; [reflexivity|intros H; apply Hn; right; exact H].
Qed.

Lemma remove_everywhere_count (s x : nat) (d : list (nat * list nat)) (k : nat) :
  option_map (fun l => count_occ Nat.eq_dec l x) (dget (remove_everywhere s d) k) =
  option_map (fun l => if Nat.eq_dec x s then pred (count_occ Nat.eq_dec l x)
                       else count_occ Nat.eq_dec l x) (dget d k).
Proof.
  unfold remove_everywhere, dget. rewrite DictFacts.get_map_values.
  destruct (Dict.get Nat.eq_dec d k) as [l|]; cbn [option_map]; [|reflexivity].
  f_equal. destruct (in_dec Nat.eq_dec s l) as [_|Hn]; [apply count_occ_list_remove|].
  destruct (Nat.eq_dec x s) as [->|]; [|reflexivity].
  rewrite (proj1 (count_occ_not_In Nat.eq_dec l s) Hn). reflexivity.
Qed.

Lemma remove_everywhere_setdefault (d : list (nat * list nat)) (k0 s k : nat)
  (Hd : forall k l, dget d k = Some l -> ~ In s l) :
  dget (remove_everywhere s (dsetdefault_append d k0 s)) k =
    if Nat.eq_dec k k0 then Some (match dget d k0 with Some l => l | None => [] end)
    else dget d k.
Proof.
  unfold remove_everywhere, dsetdefault_append, dget. rewrite DictFacts.get_map_values.
  destruct (Nat.eq_dec k k0) as [->|Hk].
  - rewrite DictFacts.get_setdefault_append_same. cbn [option_map].
    destruct (in_dec Nat.eq_dec s _) as [_|Hn];
      [|exfalso; apply Hn, in_or_app; right; left; reflexivity].
    f_equal. apply list_remove_app_last.
    destruct (Dict.get Nat.eq_dec d k0) eqn:E; [exact (Hd _ _ E)|intros []].
  - rewrite DictFacts.get_setdefault_append_other by exact Hk.
    destruct (Dict.get Nat.eq_dec d k) eqn:E; cbn [option_map]; [|reflexivity].
    destruct (in_dec Nat.eq_dec s l) as [Hi|]; [exfalso; exact (Hd _ _ E Hi)|reflexivity].
Qed.

Lemma delete_records_get (ids : list nat) (syns : list (nat * Synapse)) (k : nat) :
  dget (delete_records syns ids) k =
    if in_dec Nat.eq_dec k ids then None else dget syns k.
Proof.
  revert syns. induction ids as [|a ids IH]; intros syns; cbn [delete_records]; [reflexivity|].
  rewrite IH.
  assert (Hs : dget (if dmem a syns then Dict.remove_key Nat.eq_dec syns a else syns) k =
               if Nat.eq_dec k a then None else dget syns k).
  { destruct (dmem a syns) eqn:E; destruct (Nat.eq_dec k a) as [->|Hk].
    - apply DictFacts.get_remove_key_same.
    - apply DictFacts.get_remove_key_other; exact Hk.
    - unfold dmem, Dict.mem in E. unfold dget. destruct (Dict.get Nat.eq_dec syns a); [discriminate|reflexivity].
    - reflexivity. }
  rewrite Hs.
  destruct (in_dec Nat.eq_dec k ids) as [Hi|Hn]; destruct (in_dec Nat.eq_dec k (a :: ids)) as [Hi2|Hn2];
    destruct (Nat.eq_dec k a) as [->|Hk]; try reflexivity; exfalso; simpl in *; intuition congruence.
Qed.

(** [break_synapse] on a stored id deletes its record, keeps every other
    record, and takes exactly one occurrence of the id out of every
    outgoing and incoming list holding it ([list.remove] drops the first
    one only); all other ids keep their counts and no list is added or
    dropped. *)
Theorem break_synapse_removes_one_occurrence (m : SynapseMap) (s : nat) (v : Synapse)
  (Hs : dget (_synapses m) s = Some v) :
  exists m', break_synapse m s = Ok m' /\
    dget (_synapses m') s = None /\
    (forall k, k <> s -> dget (_synapses m') k = dget (_synapses m) k) /\
    (forall k x, option_map (fun l => count_occ Nat.eq_dec l x) (dget (_pre_synapses m') k) =
       option_map (fun l => if Nat.eq_dec x s then pred (count_occ Nat.eq_dec l x)
                            else count_occ Nat.eq_dec l x) (dget (_pre_synapses m) k)) /\
    (forall k x, option_map (fun l => count_occ Nat.eq_dec l x) (dget (_post_synapses m') k) =
       option_map (fun l => if Nat.eq_dec x s then pred (count_occ Nat.eq_dec l x)
                            else count_occ Nat.eq_dec l x) (dget (_post_synapses m) k)).
Proof.
  unfold break_synapse, ddelitem, Dict.delitem, Dict.mem. unfold dget in Hs. rewrite Hs.
  cbn [bind]. eexists. split; [reflexivity|]. cbn [_synapses _pre_synapses _post_synapses].
  split; [apply DictFacts.get_remove_key_same|].
  split; [intros k Hk; apply DictFacts.get_remove_key_other; exact Hk|].
  split; intros k x; apply remove_everywhere_count.
Qed.

Lemma break_synapse_removes_one_occurrence_witness :
  let m := create_synapse init (mkSynapse 0 (Some 0%nat) (Some 1%nat) 1 0) in
  dget (_synapses m) 0%nat = Some (mkSynapse 0 (Some 0%nat) (Some 1%nat) 1 0) /\
  exists m', break_synapse m 0 = Ok m' /\ dget (_synapses m') 0%nat = None.
Proof.
  intros m. split; [reflexivity|].
  destruct (break_synapse_removes_one_occurrence m 0 _ eq_refl) as [m' [H1 [H2 _]]].
  exists m'. split; assumption.
Defined.

(** Round trip: creating a synapse whose id is fresh (no record, in no
    list) and breaking it again gives back every record and every list,
    except that an endpoint which had no list before now has an empty
    one (left by [setdefault]). *)
Theorem create_then_break_synapse (m : SynapseMap) (s : Synapse) (pre post : nat)
  (Hpre : pre_id s = Some pre) (Hpost : post_id s = Some post)
  (Hfresh : dget (_synapses m) (syn_id s) = None)
  (Hpre_l : forall k l, dget (_pre_synapses m) k = Some l -> ~ In (syn_id s) l)
  (Hpost_l : forall k l, dget (_post_synapses m) k = Some l -> ~ In (syn_id s) l) :
  exists m', break_synapse (create_synapse m s) (syn_id s) = Ok m' /\
    (forall k, dget (_synapses m') k = dget (_synapses m) k) /\
    (forall k, dget (_pre_synapses m') k =
       if Nat.eq_dec k pre
       then Some (match dget (_pre_synapses m) pre with Some l => l | None => [] end)
       else dget (_pre_synapses m) k) /\
    (forall k, dget (_post_synapses m') k =
       if Nat.eq_dec k post
       then Some (match dget (_post_synapses m) post with Some l => l | None => [] end)
       else dget (_post_synapses m) k).
Proof.
  unfold create_synapse. rewrite Hpre, Hpost.
  unfold break_synapse, ddelitem, Dict.delitem, Dict.mem. cbn [_synapses _pre_synapses _post_synapses].
  unfold dsetitem. rewrite DictFacts.get_setitem_same. cbn [bind].
  eexists. split; [reflexivity|]. cbn [_synapses _pre_synapses _post_synapses].
  split; [|split; intros k; apply remove_everywhere_setdefault; assumption].
  intros k. unfold dget. destruct (Nat.eq_dec k (syn_id s)) as [->|Hk].
  - rewrite DictFacts.get_remove_key_same. symmetry; exact Hfresh.
  - rewrite DictFacts.get_remove_key_other by exact Hk.
    apply DictFacts.get_setitem_other; exact Hk.
Qed.

Lemma create_then_break_synapse_witness :
  let s := mkSynapse 0 (Some 0%nat) (Some 1%nat) 1 0 in
  (pre_id s = Some 0%nat /\ post_id s = Some 1%nat /\ dget (_synapses init) (syn_id s) = None /\
   (forall k l, dget (_pre_synapses init) k = Some l -> ~ In (syn_id s) l) /\
   (forall k l, dget (_post_synapses init) k = Some l -> ~ In (syn_id s) l)) /\
  exists m', break_synapse (create_synapse init s) (syn_id s) = Ok m' /\
    (forall k, dget (_synapses m') k = dget (_synapses init) k) /\
    (forall k, dget (_pre_synapses m') k =
       if Nat.eq_dec k 0 then Some (match dget (_pre_synapses init) 0%nat with Some l => l | None => [] end)
       else dget (_pre_synapses init) k) /\
    (forall k, dget (_post_synapses m') k =
       if Nat.eq_dec k 1 then Some (match dget (_post_synapses init) 1%nat with Some l => l | None => [] end)
       else dget (_post_synapses init) k).
Proof.
  intros s.
  assert (Hl : forall k l, dget (_pre_synapses init) k = Some l -> ~ In (syn_id s) l)
    by (intros k l H; discriminate H).
  assert (Hl' : forall k l, dget (_post_synapses init) k = Some l -> ~ In (syn_id s) l)
    by (intros k l H; discriminate H).
  split; [repeat split; assumption|].
  exact (create_then_break_synapse init s 0 1 eq_refl eq_refl eq_refl Hl Hl').
Defined.

(** [disconnect_neuron] raises [KeyError] when the id lacks an outgoing or
    an incoming list; and with [delete=True] it always raises, since its
    second test deletes [self._pre_synapses[neuron_id]] a second time (the
    records and the outgoing list it removed before raising are not part of
    this model's error result). *)
Theorem disconnect_neuron_raises :
  (forall (m : SynapseMap) (n : nat), disconnect_neuron m n true = Err KeyError) /\
  (forall (m : SynapseMap) (n : nat) (delete : bool),
     dget (_pre_synapses m) n = None \/ dget (_post_synapses m) n = None ->
     disconnect_neuron m n delete = Err KeyError).
Proof.
  split.
  - intros m n. unfold disconnect_neuron, dgetitem, Dict.getitem.
    destruct (Dict.get Nat.eq_dec (_pre_synapses m) n) as [lp|] eqn:E1; cbn [bind]; [|reflexivity].
    destruct (Dict.get Nat.eq_dec (_post_synapses m) n) as [lq|] eqn:E2; cbn [bind]; [|reflexivity].
    unfold dmem, Dict.mem. rewrite E1, E2. unfold ddelitem, Dict.delitem, Dict.mem. rewrite E1.
    cbn [bind]. rewrite DictFacts.get_remove_key_same. reflexivity.
  - intros m n delete H. unfold disconnect_neuron, dgetitem, Dict.getitem. unfold dget in H.
    destruct H as [H|H]; rewrite H; cbn [bind]; [reflexivity|].
    destruct (Dict.get Nat.eq_dec (_pre_synapses m) n); reflexivity.
Qed.

Lemma disconnect_neuron_raises_witness :
  (dget (_pre_synapses init) 0%nat = None \/ dget (_post_synapses init) 0%nat = None) /\
  disconnect_neuron init 0 false = Err KeyError.
Proof.
  split; [left; reflexivity|].
  apply (proj2 disconnect_neuron_raises). left; reflexivity.
Defined.

(** [disconnect_neuron] with [delete=False] on an id with both lists
    empties those two lists, deletes exactly the records of the ids they
    held, and leaves every other neuron's lists as they were. *)
Theorem disconnect_neuron_keep_lists (m : SynapseMap) (n : nat) (lp lq : list nat)
  (Hp : dget (_pre_synapses m) n = Some lp) (Hq : dget (_post_synapses m) n = Some lq) :
  exists m', disconnect_neuron m n false = Ok m' /\
    dget (_pre_synapses m') n = Some [] /\ dget (_post_synapses m') n = Some [] /\
    (forall k, k <> n ->
       dget (_pre_synapses m') k = dget (_pre_synapses m) k /\
       dget (_post_synapses m') k = dget (_post_synapses m) k) /\
    (forall s, dget (_synapses m') s =
       if in_dec Nat.eq_dec s (lp ++ lq) then None else dget (_synapses m) s).
Proof.
  unfold dget in Hp, Hq. unfold disconnect_neuron, dgetitem, Dict.getitem.
  rewrite Hp, Hq. cbn [bind]. unfold dmem, Dict.mem. rewrite Hp, Hq. cbn [bind fst snd].
  eexists. split; [reflexivity|]. cbn [_synapses _pre_synapses _post_synapses].
  unfold dsetitem, dget.
  split; [apply DictFacts.get_setitem_same|]. split; [apply DictFacts.get_setitem_same|].
  split; [intros k Hk; split; apply DictFacts.get_setitem_other; exact Hk|].
  intros s. apply delete_records_get.
Qed.

Lemma disconnect_neuron_keep_lists_witness :
  let m := create_synapse (create_synapse init (mkSynapse 0 (Some 0%nat) (Some 1%nat) 1 0))
                          (mkSynapse 1 (Some 1%nat) (Some 0%nat) 1 0) in
  (dget (_pre_synapses m) 0%nat = Some [0%nat] /\ dget (_post_synapses m) 0%nat = Some [1%nat]) /\
  exists m', disconnect_neuron m 0 false = Ok m' /\
    dget (_pre_synapses m') 0%nat = Some [] /\ dget (_synapses m') 1%nat = None.
Proof.
  intros m. split; [split; reflexivity|].
  destruct (disconnect_neuron_keep_lists m 0 [0%nat] [1%nat] eq_refl eq_refl)
    as [m' [H1 [H2 [_ [_ H5]]]]].
  exists m'. split; [exact H1|]. split; [exact H2|]. rewrite H5. reflexivity.
Defined.

End SynapseMapFacts.

(** * Further properties of Brain *)

Module BrainExtraFacts.

Import AsyncNeuron Brain.

Definition not_to (t : nat) (syn : Synapse) : bool :=
  if Nat.eq_dec (target_id syn) t then false else true.

Lemma set_mem_set_add (k x : nat) (s : list nat) :
  set_mem k (set_add x s) = if Nat.eq_dec k x then true else set_mem k s.
Proof.
  unfold set_add, set_mem.
  destruct (in_dec Nat.eq_dec x s) as [Hx|Hx]; destruct (Nat.eq_dec k x) as [E|Hk];
    destruct (in_dec Nat.eq_dec k s) as [Hs|Hs]; try reflexivity;
    try (destruct (in_dec Nat.eq_dec k (s ++ [x])) as [H|H]); try reflexivity;
    exfalso; rewrite ?in_app_iff in *; simpl in *; subst; intuition congruence.
Qed.

Lemma set_mem_set_remove_other (k n : nat) (s : list nat) :
  k <> n -> set_mem k (set_remove n s) = set_mem k s.
Proof.
  intros Hk. unfold set_mem, set_remove.
  destruct (in_dec Nat.eq_dec k (filter _ s)) as [H|H]; destruct (in_dec Nat.eq_dec k s) as [H'|H'];
    try reflexivity; exfalso.
  - apply filter_In in H. exact (H' (proj1 H)).
  - apply H, filter_In. split; [exact H'|]. destruct (Nat.eq_dec n k); [congruence|reflexivity].
Qed.

Lemma filter_not_to_In (t : nat) (syn : Synapse) (l : list Synapse) :
  In syn (filter (not_to t) l) <-> In syn l /\ target_id syn <> t.
Proof.
  rewrite filter_In. unfold not_to. destruct (Nat.eq_dec (target_id syn) t); split;
    intros [H1 H2]; split; first [assumption | discriminate | contradiction | reflexivity].
Qed.

Lemma nsetitem_twice {V : Type} (d : list (nat * V)) (k : nat) (v v' : V) :
  nsetitem (nsetitem d k v) k v' = nsetitem d k v'.
Proof.
  unfold nsetitem. induction d as [|[k0 w] d IH]; cbn [Dict.setitem].
  - destruct (Nat.eq_dec k k); [reflexivity|contradiction].
  - destruct (Nat.eq_dec k k0) as [->|Hk]; cbn [Dict.setitem].
    + destruct (Nat.eq_dec k0 k0); [reflexivity|contradiction].
    + destruct (Nat.eq_dec k k0); [contradiction|]. rewrite IH. reflexivity.
Qed.

Lemma add_neuron_fields (b : Brain) (n : Neuron) (i o : bool) :
  neuron_exists b (id n) = false ->
  neurons (add_neuron b n i o) = set_add (id n) (neurons b) /\
  neurons_by_id (add_neuron b n i o) = nsetitem (neurons_by_id b) (id n) n /\
  connections (add_neuron b n i o) = nsetitem (connections b) (id n) [] /\
  input_neurons (add_neuron b n i o) =
    (if i then set_add (id n) (input_neurons b) else input_neurons b) /\
  output_neurons (add_neuron b n i o) =
    (if o then set_add (id n) (output_neurons b) else output_neurons b) /\
  time (add_neuron b n i o) = time b /\ input_buffer (add_neuron b n i o) = input_buffer b.
Proof. intros H. unfold add_neuron. rewrite H. destruct i, o; repeat split. Qed.

Lemma add_neuron_existing (b : Brain) (n : Neuron) (i o : bool) :
  neuron_exists b (id n) = true -> add_neuron b n i o = b.
Proof. intros H. unfold add_neuron. rewrite H. reflexivity. Qed.

Lemma add_neuron_registers (b : Brain) (n : Neuron) (i o : bool) :
  neuron_exists (add_neuron b n i o) (id n) = true.
Proof.
  destruct (neuron_exists b (id n)) eqn:E; [rewrite add_neuron_existing by exact E; exact E|].
  destruct (add_neuron_fields b n i o E) as [Hn _].
  unfold neuron_exists. rewrite Hn, set_mem_set_add. destruct (Nat.eq_dec (id n) (id n)); [reflexivity|contradiction].
Qed.

Lemma break_synapses_ok (b : Brain) (f t : nat) (l : list Synapse) :
  neuron_exists b f = true -> nget (connections b) f = Some l ->
  break_synapses b f t = Ok (with_connections (nsetitem (connections b) f (filter (not_to t) l)) b).
Proof.
  intros Hf Hl. unfold break_synapses. rewrite Hf.
  unfold ngetitem, Dict.getitem. fold (@nget (list Synapse)). rewrite Hl. reflexivity.
Qed.

Lemma get_synapses_with_connections (b : Brain) (c : list (nat * list Synapse)) (k : nat) :
  get_synapses (with_connections c b) k = match nget c k with Some l => l | None => [] end.
Proof. reflexivity. Qed.

Lemma get_synapses_set (c : list (nat * list Synapse)) (b : Brain) (k f : nat) (l : list Synapse) :
  get_synapses (with_connections (nsetitem c f l) b) k =
    if Nat.eq_dec k f then l else match nget c k with Some l' => l' | None => [] end.
Proof.
  rewrite get_synapses_with_connections. unfold nget, nsetitem.
  destruct (Nat.eq_dec k f) as [->|Hk].
  - rewrite DictFacts.get_setitem_same. reflexivity.
  - rewrite DictFacts.get_setitem_other by exact Hk. reflexivity.
Qed.

Lemma process_input_schedule (self b' : Brain) (nid : nat) (str : R) (sch : list (R * Input)) :
  _process_input self nid str = Ok (b', sch) ->
  forall ts e, In (ts, e) sch ->
    exists k l syn, In (k, l) (connections self) /\ In syn l /\
      ts = time self + delay syn /\ e = mkInput (target_id syn) (weight syn).
Proof.
  unfold _process_input, ngetitem, Dict.getitem. fold (@nget Neuron).
  destruct (nget (neurons_by_id self) nid) as [neuron|]; cbn [bind]; [|discriminate].
  destruct (receive_input neuron (time self) str) as [[fired n']|]; cbn [bind]; [|discriminate].
  cbn [fst snd]. destruct fired; intros [= _ <-]; [|intros ts e []].
  intros ts e H. unfold propagation_events, get_synapses in H.
  cbn [time connections with_neurons_by_id] in H.
  apply in_map_iff in H. destruct H as [syn [Heq Hin]]. injection Heq as <- <-.
  destruct (nget (connections self) (id n')) as [l|] eqn:E; [|contradiction].
  exists (id n'), l, syn. split; [exact (DictFacts.get_in Nat.eq_dec _ _ _ E)|].
  repeat split; exact Hin.
Qed.

Lemma deliver_all_schedule (order : list Input) (self b' : Brain) (d : list Input)
  (sch : list (R * Input)) :
  deliver_all self order = Ok (b', d, sch) ->
  forall ts e, In (ts, e) sch ->
    exists k l syn, In (k, l) (connections self) /\ In syn l /\
      ts = time self + delay syn /\ e = mkInput (target_id syn) (weight syn).
Proof.
  revert self b' d sch. induction order as [|inp order IH]; intros self b' d sch; cbn [deliver_all].
  - intros [= _ _ <-] ts e [].
  - destruct (_process_input self (neuron_id inp) (strength inp)) as [[b1 s1]|] eqn:H1;
      cbn [bind]; [|discriminate]. cbn [fst snd].
    destruct (deliver_all b1 order) as [[[b2 d2] s2]|] eqn:H2; cbn [bind]; [|discriminate].
    cbn [fst snd]. intros [= _ _ <-] ts e H. apply in_app_or in H. destruct H as [H|H].
    + exact (process_input_schedule _ _ _ _ _ H1 ts e H).
    + destruct (BrainFacts.process_input_ok _ _ _ _ _ H1) as [C [T _]].
      rewrite <- C, <- T. exact (IH _ _ _ _ H2 ts e H).
Qed.

Lemma fold_Rmin_le (ks : list R) (a : R) :
  fold_left Rmin ks a <= a /\ (forall k, In k ks -> fold_left Rmin ks a <= k).
Proof.
  revert a. induction ks as [|k ks IH]; intros a; cbn [fold_left]; [split; [lra|intros k []]|].
  destruct (IH (Rmin a k)) as [H1 H2].
  assert (Ha : Rmin a k <= a) by apply Rmin_l. assert (Hk : Rmin a k <= k) by apply Rmin_r.
  split; [lra|]. intros k' [<-|Hk']; [lra|exact (H2 k' Hk')].
Qed.

(** [add_neuron] with a new id registers it: it exists, [get_neuron]
    returns it, it has an empty connection list, its input and output flags
    are set as asked, and nothing about any other id, the clock or the
    buffer changes. *)
Theorem add_neuron_registers_fresh (b : Brain) (n : Neuron) (i o : bool)
  (Hnew : neuron_exists b (id n) = false) :
  let b' := add_neuron b n i o in
  neuron_exists b' (id n) = true /\ get_neuron b' (id n) = Some n /\ get_synapses b' (id n) = [] /\
  is_input_neuron b' (id n) = (i || is_input_neuron b (id n))%bool /\
  is_output_neuron b' (id n) = (o || is_output_neuron b (id n))%bool /\
  (forall k, k <> id n ->
     neuron_exists b' k = neuron_exists b k /\ get_neuron b' k = get_neuron b k /\
     get_synapses b' k = get_synapses b k /\ is_input_neuron b' k = is_input_neuron b k /\
     is_output_neuron b' k = is_output_neuron b k) /\
  time b' = time b /\ input_buffer b' = input_buffer b.
Proof.
  intros b'. destruct (add_neuron_fields b n i o Hnew) as [Hn [Hm [Hc [Hi [Ho [Ht Hb]]]]]].
  unfold b', neuron_exists, get_neuron, get_synapses, is_input_neuron, is_output_neuron.
  rewrite Hn, Hm, Hc, Hi, Ho, Ht, Hb. unfold nget, nsetitem.
  split; [rewrite set_mem_set_add; destruct (Nat.eq_dec (id n) (id n)); [reflexivity|contradiction]|].
  split; [apply DictFacts.get_setitem_same|].
  split; [rewrite DictFacts.get_setitem_same; reflexivity|].
  split; [destruct i; [rewrite set_mem_set_add; destruct (Nat.eq_dec (id n) (id n)); [reflexivity|contradiction]|reflexivity]|].
  split; [destruct o; [rewrite set_mem_set_add; destruct (Nat.eq_dec (id n) (id n)); [reflexivity|contradiction]|reflexivity]|].
  split; [|split; reflexivity].
  intros k Hk. rewrite set_mem_set_add, !DictFacts.get_setitem_other by exact Hk.
  destruct (Nat.eq_dec k (id n)); [contradiction|].
  split; [reflexivity|]. split; [reflexivity|]. split; [reflexivity|].
  split; [destruct i; [rewrite set_mem_set_add; destruct (Nat.eq_dec k (id n)); [contradiction|reflexivity]|reflexivity]|].
  destruct o; [rewrite set_mem_set_add; destruct (Nat.eq_dec k (id n)); [contradiction|reflexivity]|reflexivity].
Qed.

Lemma add_neuron_registers_fresh_witness :
  let n := AsyncNeuron.init 0 0 1 (9/10) 0 0 0 in
  neuron_exists Brain.init (id n) = false /\
  get_neuron (add_neuron Brain.init n true false) (id n) = Some n.
Proof.
  intros n. split; [reflexivity|].
  exact (proj1 (proj2 (add_neuron_registers_fresh Brain.init n true false eq_refl))).
Defined.

(** Once an id is registered, adding any neuron with the same id again is
    ignored: the first neuron, its connections and its flags stay. *)
Theorem add_neuron_same_id_ignored (b : Brain) (n n' : Neuron) (i o i' o' : bool)
  (Hid : id n' = id n) :
  add_neuron (add_neuron b n i o) n' i' o' = add_neuron b n i o.
Proof. apply add_neuron_existing. rewrite Hid. apply add_neuron_registers. Qed.

Lemma add_neuron_same_id_ignored_witness :
  let n := AsyncNeuron.init 0 0 1 (9/10) 0 0 0 in
  let n' := AsyncNeuron.init 0 (-70) (-55) (1/20) 0 0 0 in
  id n' = id n /\
  add_neuron (add_neuron Brain.init n false false) n' true true = add_neuron Brain.init n false false.
Proof.
  intros n n'. split; [reflexivity|]. apply add_neuron_same_id_ignored. reflexivity.
Defined.

(** [break_synapses from to] leaves the brain unchanged when [from] is not
    registered, raises [KeyError] when [from] is registered but has no
    connection entry, and otherwise removes from [from]'s list exactly the
    synapses targeting [to], touching no other list, neuron, clock or
    buffer. *)
Theorem break_synapses_behaviour :
  (forall (b : Brain) (f t : nat), neuron_exists b f = false -> break_synapses b f t = Ok b) /\
  (forall (b : Brain) (f t : nat), neuron_exists b f = true -> nget (connections b) f = None ->
     break_synapses b f t = Err KeyError) /\
  (forall (b : Brain) (f t : nat) (l : list Synapse),
     neuron_exists b f = true -> nget (connections b) f = Some l ->
     exists b', break_synapses b f t = Ok b' /\
       (forall syn, In syn (get_synapses b' f) <-> In syn l /\ target_id syn <> t) /\
       (forall k, k <> f -> get_synapses b' k = get_synapses b k) /\
       neurons b' = neurons b /\ neurons_by_id b' = neurons_by_id b /\
       input_buffer b' = input_buffer b /\ time b' = time b).
Proof.
  split; [|split].
  - intros b f t H. unfold break_synapses. rewrite H. reflexivity.
  - intros b f t H Hn. unfold break_synapses. rewrite H.
    unfold ngetitem, Dict.getitem. fold (@nget (list Synapse)). rewrite Hn. reflexivity.
  - intros b f t l Hf Hl. rewrite (break_synapses_ok b f t l Hf Hl).
    eexists. split; [reflexivity|].
    split; [intros syn; rewrite get_synapses_set; destruct (Nat.eq_dec f f); [apply filter_not_to_In|contradiction]|].
    split; [|repeat split].
    intros k Hk. rewrite get_synapses_set. destruct (Nat.eq_dec k f); [contradiction|reflexivity].
Qed.

(** Neurons 0 and 1; neuron 0 has a synapse onto 1 and one onto itself,
    neuron 1 a synapse onto 0 and one onto itself. *)
Definition pair_brain : Brain :=
  mkBrain 0 [0%nat; 1%nat]
    [(0%nat, AsyncNeuron.init 0 0 1 0 0 0 0); (1%nat, AsyncNeuron.init 1 0 1 0 0 0 0)]
    [(0%nat, [mkSynapse 1 1 0; mkSynapse 0 2 0]); (1%nat, [mkSynapse 0 1 0; mkSynapse 1 2 0])]
    [] [] [].

Lemma break_synapses_behaviour_witness :
  (neuron_exists pair_brain 0 = true /\
   nget (connections pair_brain) 0%nat = Some [mkSynapse 1 1 0; mkSynapse 0 2 0]) /\
  exists b', break_synapses pair_brain 0 1 = Ok b' /\
    ~ In (mkSynapse 1 1 0) (get_synapses b' 0) /\ In (mkSynapse 0 2 0) (get_synapses b' 0) /\
    get_synapses b' 1 = get_synapses pair_brain 1.
Proof.
  split; [split; reflexivity|].
  destruct (proj2 (proj2 break_synapses_behaviour) pair_brain 0%nat 1%nat _ eq_refl eq_refl)
    as [b' [H1 [H2 [H3 _]]]].
  exists b'. split; [exact H1|]. split; [|split].
  - intros H. apply H2 in H. destruct H as [_ H]. apply H. reflexivity.
  - apply H2. split; [right; left; reflexivity|discriminate].
  - apply H3. discriminate.
Defined.

(** [sever_connection a c] is a no-op unless both ids are registered; when
    both are and both have connection lists, afterwards no synapse goes
    from [a] to [c] or from [c] to [a], every other synapse of the two
    lists is kept, and every other neuron's list is unchanged. *)
Theorem sever_connection_behaviour :
  (forall (b : Brain) (a c : nat), (neuron_exists b a && neuron_exists b c)%bool = false ->
     sever_connection b a c = Ok b) /\
  (forall (b : Brain) (a c : nat) (la lc : list Synapse),
     neuron_exists b a = true -> neuron_exists b c = true ->
     nget (connections b) a = Some la -> nget (connections b) c = Some lc ->
     exists b', sever_connection b a c = Ok b' /\
       (forall syn, In syn (get_synapses b' a) <-> In syn la /\ target_id syn <> c) /\
       (forall syn, In syn (get_synapses b' c) <-> In syn lc /\ target_id syn <> a) /\
       (forall k, k <> a -> k <> c -> get_synapses b' k = get_synapses b k)).
Proof.
  split.
  - intros b a c H. unfold sever_connection. rewrite H. reflexivity.
  - intros b a c la lc Ha Hc Hla Hlc. unfold sever_connection. rewrite Ha, Hc. cbn [andb].
    rewrite (break_synapses_ok b a c la Ha Hla). cbn [bind].
    set (b1 := with_connections (nsetitem (connections b) a (filter (not_to c) la)) b).
    assert (Hc1 : neuron_exists b1 c = true) by exact Hc.
    destruct (Nat.eq_dec c a) as [->|Hca].
    + rewrite Hla in Hlc. injection Hlc as <-.
      assert (Hl1 : nget (connections b1) a = Some (filter (not_to a) la))
        by (unfold b1, nget, nsetitem; cbn [connections with_connections]; apply DictFacts.get_setitem_same).
      rewrite (break_synapses_ok b1 a a _ Hc1 Hl1).
      eexists. split; [reflexivity|].
      assert (Hs : forall syn, In syn (get_synapses
                (with_connections (nsetitem (connections b1) a (filter (not_to a) (filter (not_to a) la))) b1) a)
                <-> In syn la /\ target_id syn <> a).
      { intros syn. rewrite get_synapses_set. destruct (Nat.eq_dec a a); [|contradiction].
        rewrite !filter_not_to_In. tauto. }
      split; [exact Hs|]. split; [exact Hs|].
      intros k Hk _. rewrite get_synapses_set. destruct (Nat.eq_dec k a); [contradiction|].
      unfold b1, nget, nsetitem. cbn [connections with_connections].
      rewrite DictFacts.get_setitem_other by exact Hk. reflexivity.
    + assert (Hl1 : nget (connections b1) c = Some lc)
        by (unfold b1, nget, nsetitem; cbn [connections with_connections];
            rewrite DictFacts.get_setitem_other by exact Hca; exact Hlc).
      rewrite (break_synapses_ok b1 c a lc Hc1 Hl1).
      eexists. split; [reflexivity|].
      split; [|split].
      * intros syn. rewrite get_synapses_set. destruct (Nat.eq_dec a c) as [E|]; [congruence|].
        unfold b1, nget, nsetitem. cbn [connections with_connections].
        rewrite DictFacts.get_setitem_same. apply filter_not_to_In.
      * intros syn. rewrite get_synapses_set. destruct (Nat.eq_dec c c); [|contradiction].
        apply filter_not_to_In.
      * intros k Hka Hkc. rewrite get_synapses_set. destruct (Nat.eq_dec k c); [contradiction|].
        unfold b1, nget, nsetitem. cbn [connections with_connections].
        rewrite DictFacts.get_setitem_other by exact Hka. reflexivity.
Qed.

Lemma sever_connection_behaviour_witness :
  (neuron_exists pair_brain 0 = true /\ neuron_exists pair_brain 1 = true /\
   nget (connections pair_brain) 0%nat = Some [mkSynapse 1 1 0; mkSynapse 0 2 0] /\
   nget (connections pair_brain) 1%nat = Some [mkSynapse 0 1 0; mkSynapse 1 2 0]) /\
  exists b', sever_connection pair_brain 0 1 = Ok b' /\
    ~ In (mkSynapse 1 1 0) (get_synapses b' 0) /\ In (mkSynapse 0 2 0) (get_synapses b' 0) /\
    ~ In (mkSynapse 0 1 0) (get_synapses b' 1) /\ In (mkSynapse 1 2 0) (get_synapses b' 1).
Proof.
  split; [repeat split|].
  destruct (proj2 sever_connection_behaviour pair_brain 0%nat 1%nat _ _ eq_refl eq_refl eq_refl eq_refl)
    as [b' [H1 [Ha [Hc _]]]].
  exists b'. split; [exact H1|].
  split; [intros H; apply Ha in H; destruct H as [_ H]; apply H; reflexivity|].
  split; [apply Ha; split; [right; left; reflexivity|discriminate]|].
  split; [intros H; apply Hc in H; destruct H as [_ H]; apply H; reflexivity|].
  apply Hc. split; [right; left; reflexivity|discriminate].
Defined.

(** Calling [Brain.disconnect_neuron] on its own (outside [delete_neuron])
    keeps the id registered but drops its connection entry, so a later
    [create_synapse] or [break_synapses] from it raises [KeyError]. *)
Theorem disconnect_then_create_raises (b : Brain) (n : nat) (syn : Synapse)
  (Hn : neuron_exists b n = true) (Ht : neuron_exists b (target_id syn) = true) :
  neuron_exists (disconnect_neuron b n) n = true /\
  create_synapse (disconnect_neuron b n) n syn = Err KeyError /\
  (forall t, break_synapses (disconnect_neuron b n) n t = Err KeyError).
Proof.
  assert (Hnone : nget (connections (disconnect_neuron b n)) n = None).
  { unfold disconnect_neuron, nget. cbn [connections with_connections].
    rewrite DictFacts.get_map_values.
    destruct (nmem n (connections b)) eqn:E.
    - unfold nremove. rewrite DictFacts.get_remove_key_same. reflexivity.
    - unfold nmem, Dict.mem in E. destruct (Dict.get Nat.eq_dec (connections b) n); [discriminate|reflexivity]. }
  split; [exact Hn|]. split.
  - unfold create_synapse. change (neuron_exists (disconnect_neuron b n) n) with (neuron_exists b n).
    change (neuron_exists (disconnect_neuron b n) (target_id syn)) with (neuron_exists b (target_id syn)).
    rewrite Hn, Ht. cbn [andb].
    unfold ngetitem, Dict.getitem. fold (@nget (list Synapse)). rewrite Hnone. reflexivity.
  - intros t. unfold break_synapses. change (neuron_exists (disconnect_neuron b n) n) with (neuron_exists b n).
    rewrite Hn. unfold ngetitem, Dict.getitem. fold (@nget (list Synapse)). rewrite Hnone. reflexivity.
Qed.

Lemma disconnect_then_create_raises_witness :
  let b := add_neuron Brain.init (AsyncNeuron.init 0 0 1 (9/10) 0 0 0) false false in
  (neuron_exists b 0 = true /\ neuron_exists b (target_id (mkSynapse 0 1 0)) = true) /\
  create_synapse (disconnect_neuron b 0) 0 (mkSynapse 0 1 0) = Err KeyError.
Proof.
  intros b. split; [split; reflexivity|].
  exact (proj1 (proj2 (disconnect_then_create_raises b 0%nat (mkSynapse 0 1 0) eq_refl eq_refl))).
Defined.

(** Breaking the synapses from [f] to the target of a synapse just created
    from [f] gives the same brain as breaking them without creating it. *)
Theorem create_then_break_synapses (b b1 : Brain) (f : nat) (syn : Synapse)
  (H : create_synapse b f syn = Ok b1) :
  break_synapses b1 f (target_id syn) = break_synapses b f (target_id syn).
Proof.
  unfold create_synapse in H.
  destruct (neuron_exists b f && neuron_exists b (target_id syn))%bool eqn:E;
    [|injection H as <-; reflexivity].
  apply andb_prop in E. destruct E as [Ef _].
  unfold ngetitem, Dict.getitem in H. fold (@nget (list Synapse)) in H.
  destruct (nget (connections b) f) as [l|] eqn:Hl; cbn [bind] in H; [|discriminate].
  injection H as <-.
  rewrite (break_synapses_ok b f _ l Ef Hl).
  rewrite (break_synapses_ok _ f _ (l ++ [syn])).
  - cbn [connections with_connections]. rewrite nsetitem_twice, filter_app. cbn [filter].
    unfold not_to at 2. destruct (Nat.eq_dec (target_id syn) (target_id syn)); [|contradiction].
    rewrite app_nil_r. reflexivity.
  - exact Ef.
  - unfold nget, nsetitem. cbn [connections with_connections]. apply DictFacts.get_setitem_same.
Qed.

Lemma create_then_break_synapses_witness :
  let b := add_neuron Brain.init (AsyncNeuron.init 0 0 1 (9/10) 0 0 0) false false in
  exists b1, create_synapse b 0 (mkSynapse 0 1 0) = Ok b1 /\
    break_synapses b1 0 0 = break_synapses b 0 0.
Proof.
  intros b.
  assert (H : exists b1, create_synapse b 0 (mkSynapse 0 1 0) = Ok b1) by (eexists; reflexivity).
  destruct H as [b1 H]. exists b1. split; [exact H|].
  exact (create_then_break_synapses b b1 0%nat (mkSynapse 0 1 0) H).
Defined.

(** [add_input] appends the event at the end of its timestamp's bucket
    (creating the bucket if needed), so events at one timestamp keep their
    insertion order; no other bucket, the clock, the neurons or the
    connections change. *)
Theorem add_input_appends (b : Brain) (ts : R) (e : Input) :
  tget (input_buffer (add_input b ts e)) ts =
    Some (match tget (input_buffer b) ts with Some l => l | None => [] end ++ [e]) /\
  (forall ts', ts' <> ts -> tget (input_buffer (add_input b ts e)) ts' = tget (input_buffer b) ts') /\
  time (add_input b ts e) = time b /\ neurons (add_input b ts e) = neurons b /\
  neurons_by_id (add_input b ts e) = neurons_by_id b /\
  connections (add_input b ts e) = connections b.
Proof.
  unfold add_input, tget, tsetdefault_append. cbn [input_buffer with_input_buffer].
  split; [apply DictFacts.get_setdefault_append_same|].
  split; [intros ts' H; apply DictFacts.get_setdefault_append_other; exact H|].
  repeat split.
Qed.

Lemma add_input_appends_witness :
  let b := add_input Brain.init 0 (mkInput 0 1) in
  (1 <> 0) /\ tget (input_buffer (add_input b 0 (mkInput 1 2))) 1 = tget (input_buffer b) 1.
Proof.
  intros b. split; [lra|].
  apply (proj1 (proj2 (add_input_appends b 0 (mkInput 1 2)))). lra.
Defined.

(** Every event a [propagate] call schedules is
    [(time + syn.delay, Input(syn.target_id, syn.weight))] for a synapse
    [syn] of the connections, [time] being the new clock; so when no synapse
    has a negative delay, no event is scheduled before the new clock. *)
Theorem propagate_schedules_from_synapses (sched : scheduler) (b b' : Brain) (d : list Input)
  (sch : list (R * Input)) (Hp : propagate sched b = Ok (b', d, sch)) :
  (forall ts e, In (ts, e) sch ->
     exists k l syn, In (k, l) (connections b) /\ In syn l /\
       ts = time b' + delay syn /\ e = mkInput (target_id syn) (weight syn)) /\
  ((forall k l syn, In (k, l) (connections b) -> In syn l -> 0 <= delay syn) ->
     forall ts e, In (ts, e) sch -> time b' <= ts).
Proof.
  assert (Hs : forall ts e, In (ts, e) sch ->
     exists k l syn, In (k, l) (connections b) /\ In syn l /\
       ts = time b' + delay syn /\ e = mkInput (target_id syn) (weight syn)).
  { revert Hp. unfold propagate. destruct (input_buffer b) as [|[k0 l0] rest].
    - intros [= _ _ <-] ts e [].
    - destruct (lookup_all _ _) as [[]|]; cbn [bind]; [|discriminate].
      intros Hd ts e H.
      destruct (BrainFacts.deliver_all_ok _ _ _ _ _ Hd) as [_ [_ [T _]]].
      rewrite T. exact (deliver_all_schedule _ _ _ _ _ Hd ts e H). }
  split; [exact Hs|].
  intros Hdel ts e H. destruct (Hs ts e H) as [k [l [syn [Hk [Hl [-> _]]]]]].
  assert (Hd := Hdel k l syn Hk Hl). lra.
Qed.

(** The three-neuron chain 0 -> 1 -> 2 with an event for neuron 0 at 2. *)
Definition chain_brain : Brain :=
  mkBrain 0 [0%nat; 1%nat] [(0%nat, AsyncNeuron.init 0 0 1 0 0 0 0); (1%nat, AsyncNeuron.init 1 0 1 0 0 0 0)]
    [(0%nat, [mkSynapse 1 1 (1/2)]); (1%nat, [])] [] [] [(2, [mkInput 0 1])].

Lemma propagate_schedules_from_synapses_witness :
  exists b' d sch, propagate (fun l => l) chain_brain = Ok (b', d, sch) /\
    ((forall k l syn, In (k, l) (connections chain_brain) -> In syn l -> 0 <= delay syn) ->
     forall ts e, In (ts, e) sch -> time b' <= ts).
Proof.
  assert (Hs : valid_scheduler (fun l => l)) by (intros l; apply Permutation_refl).
  destruct (BrainFacts.propagate_total (fun l => l) chain_brain Hs) as [[[b' d] sch] Hp].
  { intros e [ts [l [[[= <- <-]|[]] [<-|[]]]]]. reflexivity. }
  exists b', d, sch. split; [exact Hp|].
  exact (proj2 (propagate_schedules_from_synapses _ _ _ _ _ Hp)).
Defined.

(** On a non-empty buffer, [propagate] moves the clock to the earliest
    pending timestamp: one that is in the buffer and no later than any
    other. *)
Theorem propagate_advances_to_earliest (sched : scheduler) (b b' : Brain) (d : list Input)
  (sch : list (R * Input)) (Hne : input_buffer b <> []) (Hp : propagate sched b = Ok (b', d, sch)) :
  (forall ts l, In (ts, l) (input_buffer b) -> time b' <= ts) /\
  exists l, In (time b', l) (input_buffer b).
Proof.
  destruct (BrainFacts.propagate_ok _ _ _ _ _ Hp) as [[Hnil _]|
    [k0 [l0 [rest [bucket [Hbuf [_ [_ [T _]]]]]]]]]; [contradiction|].
  rewrite T, Hbuf. split.
  - intros ts l Hin. destruct (fold_Rmin_le (map fst rest) k0) as [H1 H2].
    unfold min_key. destruct Hin as [[= -> _]|Hin]; [exact H1|].
    apply H2. apply in_map_iff. exists (ts, l). split; [reflexivity|exact Hin].
  - destruct (BrainFacts.min_key_in k0 rest) as [H|H].
    + exists l0. left. rewrite <- H. reflexivity.
    + apply in_map_iff in H. destruct H as [[k v] [Hk Hkv]]. cbn [fst] in Hk.
      exists v. right. rewrite <- Hk. exact Hkv.
Qed.

(** Neuron 0 with pending events at times 3 and 2, stored in that order. *)
Definition two_bucket_brain : Brain :=
  mkBrain 0 [0%nat] [(0%nat, AsyncNeuron.init 0 0 1 0 0 0 0)] [(0%nat, [])] [] []
    [(3, [mkInput 0 (1/2)]); (2, [mkInput 0 (1/2)])].

Lemma propagate_advances_to_earliest_witness :
  exists b' d sch,
    (input_buffer two_bucket_brain <> [] /\ propagate (fun l => l) two_bucket_brain = Ok (b', d, sch)) /\
    time b' <= 3 /\ time b' <= 2 /\ In (time b', [mkInput 0 (1/2)]) (input_buffer two_bucket_brain).
Proof.
  assert (Hs : valid_scheduler (fun l => l)) by (intros l; apply Permutation_refl).
  destruct (BrainFacts.propagate_total (fun l => l) two_bucket_brain Hs) as [[[b' d] sch] Hp].
  { intros e [ts [l [Hin He]]].
    destruct Hin as [[= <- <-]|[[= <- <-]|[]]]; destruct He as [<-|[]]; reflexivity. }
  assert (Hne : input_buffer two_bucket_brain <> []) by discriminate.
  exists b', d, sch. split; [split; [exact Hne|exact Hp]|].
  destruct (propagate_advances_to_earliest _ _ _ _ _ Hne Hp) as [Hle [l Hin]].
  assert (H3 : time b' <= 3) by (apply (Hle 3 [mkInput 0 (1/2)]); left; reflexivity).
  assert (H2 : time b' <= 2) by (apply (Hle 2 [mkInput 0 (1/2)]); right; left; reflexivity).
  split; [exact H3|]. split; [exact H2|].
  destruct Hin as [[= E <-]|[[= E <-]|[]]]; [lra|rewrite <- E; right; left; reflexivity].
Defined.

(** [delete_neuron n] on a registered [n] drops its record and leaves every
    other neuron registered as before with the same record; each other
    neuron's synapse list only loses the synapses onto [n], and each
    buffered bucket only loses the events for [n]. *)
Theorem delete_neuron_keeps_others (b : Brain) (n : nat) (Hex : neuron_exists b n = true) :
  let b' := delete_neuron b n in
  get_neuron b' n = None /\
  (forall k, k <> n ->
     neuron_exists b' k = neuron_exists b k /\ get_neuron b' k = get_neuron b k /\
     get_synapses b' k = filter (not_to n) (get_synapses b k)) /\
  (forall ts, tget (input_buffer b') ts =
     option_map (filter (fun inp => if Nat.eq_dec (neuron_id inp) n then false else true))
       (tget (input_buffer b) ts)).
Proof.
  intros b'. destruct (BrainFacts.delete_neuron_fields b n Hex) as [Hn [Hm [Hc Hb]]].
  unfold b', get_neuron, neuron_exists, get_synapses. rewrite Hn, Hm, Hc, Hb.
  split.
  - destruct (nmem n (neurons_by_id b)) eqn:E.
    + apply DictFacts.get_remove_key_same.
    + unfold nmem, Dict.mem in E. unfold nget. destruct (Dict.get Nat.eq_dec (neurons_by_id b) n); [discriminate|reflexivity].
  - split; [|intros ts; apply DictFacts.get_map_values].
    intros k Hk. split; [apply set_mem_set_remove_other; exact Hk|]. split.
    + destruct (nmem n (neurons_by_id b)); [apply DictFacts.get_remove_key_other; exact Hk|reflexivity].
    + unfold disconnect_neuron, nget. cbn [connections with_connections].
      rewrite DictFacts.get_map_values.
      assert (Hg : Dict.get Nat.eq_dec (if nmem n (connections b) then nremove (connections b) n else connections b) k
                   = Dict.get Nat.eq_dec (connections b) k)
        by (destruct (nmem n (connections b)); [apply DictFacts.get_remove_key_other; exact Hk|reflexivity]).
      rewrite Hg. destruct (Dict.get Nat.eq_dec (connections b) k); reflexivity.
Qed.

Lemma delete_neuron_keeps_others_witness :
  neuron_exists chain_brain 1 = true /\
  get_synapses (delete_neuron chain_brain 1) 0 = filter (not_to 1) (get_synapses chain_brain 0).
Proof.
  split; [reflexivity|].
  exact (proj2 (proj2 (proj1 (proj2 (delete_neuron_keeps_others chain_brain 1%nat eq_refl)) 0%nat ltac:(discriminate)))).
Defined.

End BrainExtraFacts.
